(** * HTTP MCP Airtable Server: a shallow embedding of [server.js]

    The server is an Express application that forwards four record
    operations to the Airtable REST API.  The embedding keeps the shape of
    the source: module-level configuration read from the environment, the
    [authenticate] middleware, the tool catalogue, the dispatcher
    [executeAirtableTool] with its four helpers, and the route handlers.

    JavaScript strings are sequences of UTF-16 code units, JSON data is an
    inductive type whose objects are finite maps, exceptions are an explicit
    outcome, and the calls made through [axios] are recorded in a log so
    that statements of the form "no upstream call is made" can be stated. *)

From stdpp Require Import gmap list strings.
From Stdlib Require Import Floats NArith ZArith.

#[local] Set Warnings "-register-all".
Local Open Scope N_scope.

(** ** Strings *)

(** A JavaScript string: a sequence of UTF-16 code units. *)
Definition jsstring : Type := list N.

(** Well-formed code units fit in sixteen bits. *)
Definition code_units (s : jsstring) : Prop := Forall (fun u => u < 65536) s.

(** An ASCII literal of the source text as a [jsstring]. *)
Fixpoint lit (s : string) : jsstring :=
  match s with
  | EmptyString => []
  | String a s' => Ascii.N_of_ascii a :: lit s'
  end.

(** [s.length] *)
Definition js_length (s : jsstring) : N := N.of_nat (length s).

(** [s.substring(0, n)] for a non-negative integer [n]. *)
Definition substring0 (n : nat) (s : jsstring) : jsstring := take n s.

(** ** JSON data and JavaScript values *)

(** What [JSON.parse] produces: the request body after [express.json()] and
    the [data] of an axios response.  Numbers are IEEE 754 doubles. *)
Inductive json : Type :=
| JNull
| JBool (b : bool)
| JNum (n : float)
| JStr (s : jsstring)
| JArr (items : list json)
| JObj (props : gmap jsstring json).

(** A value held by a variable or read from a property: [None] is
    [undefined]. *)
Definition value : Type := option json.
Abbreviation undefined := (@None json).

(** ** Exceptions *)

Inductive js_error : Type :=
| Error (message : jsstring)
| TypeError (message : jsstring)
| URIError (message : jsstring)
| AxiosError (message : jsstring).

(** [error.message] *)
Definition message (e : js_error) : jsstring :=
  match e with
  | Error m | TypeError m | URIError m | AxiosError m => m
  end.

(** The outcome of evaluating an expression or awaiting a promise. *)
Inductive outcome (A : Type) : Type :=
| Return (a : A)
| Throw (e : js_error).
Arguments Return {A} a.
Arguments Throw {A} e.

Definition obind {A B} (o : outcome A) (f : A -> outcome B) : outcome B :=
  match o with
  | Return a => f a
  | Throw e => Throw e
  end.

#[global] Instance outcome_ret : MRet outcome := @Return.
#[global] Instance outcome_bind : MBind outcome := fun A B f o => obind o f.

(** ** The host: built-ins whose text is fixed by the engine *)

(** [JSON.stringify(x, null, 2)], the decimal rendering of a number and the
    messages of the engine's own errors are taken from the host. *)
Class Host : Type := {
  JSON_stringify : json -> jsstring;
  Number_toString : float -> jsstring;
  cannot_read_message : value -> jsstring -> jsstring;
  cannot_convert_message : jsstring;
  uri_malformed_message : jsstring
}.

Section Builtins.
Context `{Host}.

(** ToBoolean: the test behind [!x], [x || y] and [if (x)]. *)
Definition ToBoolean (v : value) : bool :=
  match v with
  | None => false
  | Some JNull => false
  | Some (JBool b) => b
  | Some (JNum n) => negb (PrimFloat.eqb n 0%float || PrimFloat.is_nan n)
  | Some (JStr s) => match s with [] => false | _ => true end
  | Some (JArr _) | Some (JObj _) => true
  end.

(** [a || b] *)
Definition js_or (a b : value) : value := if ToBoolean a then a else b.

(** [v.k] for the keys the program reads ([maxRecords],
    [filterByFormula], [view], [fields], [recordId]): none of them is
    defined on a built-in prototype, so only an object's own properties
    answer; reading from [undefined] or [null] throws. *)
Definition get_prop (v : value) (k : jsstring) : outcome value :=
  match v with
  | None | Some JNull => Throw (TypeError (cannot_read_message v k))
  | Some (JObj props) => Return (props !! k)
  | Some _ => Return undefined
  end.

(** Array.prototype.join(","): elements [null] print as the empty string. *)
Definition join_comma (parts : list jsstring) : jsstring :=
  match parts with
  | [] => []
  | p :: ps => p ++ concat (map (fun q => lit "," ++ q) ps)
  end.

(** ToString of JSON data, as a template literal applies it.  A parsed
    object has no callable property of its own: when it carries a key
    [toString] the inherited method is shadowed and the conversion
    throws. *)
Fixpoint json_ToString (j : json) : outcome jsstring :=
  match j with
  | JNull => Return (lit "null")
  | JBool true => Return (lit "true")
  | JBool false => Return (lit "false")
  | JNum n => Return (Number_toString n)
  | JStr s => Return s
  | JArr items =>
      let fix each (l : list json) : outcome (list jsstring) :=
        match l with
        | [] => Return []
        | JNull :: l' => obind (each l') (fun ps => Return ([] :: ps))
        | x :: l' =>
            obind (json_ToString x) (fun p =>
            obind (each l') (fun ps => Return (p :: ps)))
        end in
      obind (each items) (fun ps => Return (join_comma ps))
  | JObj props =>
      match props !! lit "toString" with
      | Some _ => Throw (TypeError cannot_convert_message)
      | None => Return (lit "[object Object]")
      end
  end.

(** [`${v}`] *)
Definition ToString (v : value) : outcome jsstring :=
  match v with
  | None => Return (lit "undefined")
  | Some j => json_ToString j
  end.

(** *** encodeURIComponent *)

Definition in_range (lo hi c : N) : bool := (lo <=? c) && (c <=? hi).

(** A-Z a-z 0-9 - _ . ! ~ * ' ( ) *)
Definition uriUnreserved (c : N) : bool :=
  in_range 65 90 c || in_range 97 122 c || in_range 48 57 c
  || bool_decide (c ∈ [45; 95; 46; 33; 126; 42; 39; 40; 41]).

Definition is_lead (c : N) : bool := in_range 55296 56319 c.
Definition is_trail (c : N) : bool := in_range 56320 57343 c.

(** The code point of a surrogate pair. *)
Definition pair_code_point (hi lo : N) : N :=
  65536 + (hi - 55296) * 1024 + (lo - 56320).

(** The UTF-8 octets of a code point. *)
Definition utf8 (cp : N) : list N :=
  if cp <? 128 then [cp]
  else if cp <? 2048 then [192 + cp / 64; 128 + cp mod 64]
  else if cp <? 65536 then
    [224 + cp / 4096; 128 + (cp / 64) mod 64; 128 + cp mod 64]
  else
    [240 + cp / 262144; 128 + (cp / 4096) mod 64;
     128 + (cp / 64) mod 64; 128 + cp mod 64].

(** An upper-case hexadecimal digit. *)
Definition hex_digit (n : N) : N := if n <? 10 then 48 + n else 55 + n.

(** ["%XX"] *)
Definition percent (octet : N) : jsstring :=
  [37; hex_digit (octet / 16); hex_digit (octet mod 16)].

Definition percent_all (octets : list N) : jsstring :=
  concat (map percent octets).

Fixpoint encodeURIComponent (s : jsstring) : outcome jsstring :=
  match s with
  | [] => Return []
  | c :: rest =>
      if uriUnreserved c then
        obind (encodeURIComponent rest) (fun r => Return (c :: r))
      else if is_lead c then
        match rest with
        | d :: rest' =>
            if is_trail d then
              obind (encodeURIComponent rest') (fun r =>
              Return (percent_all (utf8 (pair_code_point c d)) ++ r))
            else Throw (URIError uri_malformed_message)
        | [] => Throw (URIError uri_malformed_message)
        end
      else if is_trail c then Throw (URIError uri_malformed_message)
      else
        obind (encodeURIComponent rest) (fun r =>
        Return (percent_all (utf8 c) ++ r))
  end.

End Builtins.

(** ** Configuration and startup *)

(** [process.env] after [dotenv] has loaded. *)
Abbreviation environment := (gmap jsstring jsstring).

(** [process.env.PORT || 3000]: the variable's text, or the number. *)
Inductive port : Type :=
| PortText (s : jsstring)
| PortNumber (n : N).

(** The module-level constants of lines 7-11; an unset variable reads
    [undefined]. *)
Record globals : Type := {
  AIRTABLE_API_TOKEN : option jsstring;
  AIRTABLE_BASE_ID : option jsstring;
  AIRTABLE_TABLE_NAME : option jsstring;
  MCP_SERVER_SECRET : option jsstring;
  PORT : port
}.

(** ToBoolean of a constant that is a string or [undefined]. *)
Definition is_set (x : option jsstring) : bool :=
  match x with
  | Some (_ :: _) => true
  | _ => false
  end.

(** [`${x}`] of such a constant. *)
Definition show (x : option jsstring) : jsstring :=
  match x with
  | Some s => s
  | None => lit "undefined"
  end.

Definition load (env : environment) : globals :=
  {| AIRTABLE_API_TOKEN := env !! lit "AIRTABLE_API_TOKEN";
     AIRTABLE_BASE_ID := env !! lit "AIRTABLE_BASE_ID";
     AIRTABLE_TABLE_NAME := env !! lit "AIRTABLE_TABLE_NAME";
     MCP_SERVER_SECRET := env !! lit "MCP_SERVER_SECRET";
     PORT := match env !! lit "PORT" with
             | Some (c :: s) => PortText (c :: s)
             | _ => PortNumber 3000
             end |}.

(** The condition of line 15. *)
Definition missing_configuration (g : globals) : bool :=
  negb (is_set (AIRTABLE_API_TOKEN g)) || negb (is_set (AIRTABLE_BASE_ID g))
  || negb (is_set (AIRTABLE_TABLE_NAME g)) || negb (is_set (MCP_SERVER_SECRET g)).

(** What the process does to the outside while the module body runs. *)
Inductive startup_event : Type :=
| ConsoleLog (text : jsstring)
| ConsoleError (text : jsstring)
| ProcessExit (code : Z)
| Listen (p : port) (host : jsstring).

(** The module body, top to bottom: [process.exit] ends it, otherwise the
    application is built and [app.listen] is reached. *)
Definition main (env : environment) : list startup_event :=
  let g := load env in
  ConsoleLog (lit "Starting HTTP MCP Airtable Server...") ::
  if missing_configuration g then
    [ ConsoleError (lit "Missing required environment variables");
      ConsoleError (lit "Required: AIRTABLE_API_TOKEN, AIRTABLE_BASE_ID, AIRTABLE_TABLE_NAME, MCP_SERVER_SECRET");
      ProcessExit 1 ]
  else
    [ Listen (PORT g) (lit "0.0.0.0") ].

(** ** Tool definitions *)

Record tool_property : Type := {
  prop_name : jsstring;
  prop_type : jsstring;
  prop_default : option N
}.

Record tool : Type := {
  name : jsstring;
  description : jsstring;
  properties : list tool_property;
  required : list jsstring
}.

Definition tools : list tool :=
  [ {| name := lit "airtable_get_records";
       description := lit "Get records from Airtable table";
       properties :=
         [ {| prop_name := lit "maxRecords"; prop_type := lit "number";
              prop_default := Some 10 |};
           {| prop_name := lit "filterByFormula"; prop_type := lit "string";
              prop_default := None |};
           {| prop_name := lit "view"; prop_type := lit "string";
              prop_default := None |} ];
       required := [] |};
    {| name := lit "airtable_create_record";
       description := lit "Create a new record in Airtable table";
       properties :=
         [ {| prop_name := lit "fields"; prop_type := lit "object";
              prop_default := None |} ];
       required := [lit "fields"] |};
    {| name := lit "airtable_update_record";
       description := lit "Update an existing record in Airtable table";
       properties :=
         [ {| prop_name := lit "recordId"; prop_type := lit "string";
              prop_default := None |};
           {| prop_name := lit "fields"; prop_type := lit "object";
              prop_default := None |} ];
       required := [lit "recordId"; lit "fields"] |};
    {| name := lit "airtable_delete_record";
       description := lit "Delete a record from Airtable table";
       properties :=
         [ {| prop_name := lit "recordId"; prop_type := lit "string";
              prop_default := None |} ];
       required := [lit "recordId"] |} ].

(** ** Upstream calls *)

Inductive verb : Type := GET | POST | PATCH | DELETE.

(** One call through axios: [axios.get(url, {headers, params})],
    [axios.post(url, data, {headers})] and so on.  [params] and [data] are
    objects built by the program: a property may hold [undefined]. *)
Record axios_request : Type := {
  method : verb;
  url : jsstring;
  headers : list (jsstring * jsstring);
  params : option (gmap jsstring value);
  data : option (gmap jsstring value)
}.

(** A computation that may throw and that logs the upstream calls it
    makes, in order. *)
Definition M (A : Type) : Type := outcome A * list axios_request.

Definition ret {A} (a : A) : M A := (Return a, []).
Definition throw {A} (e : js_error) : M A := (Throw e, []).
Definition lift {A} (o : outcome A) : M A := (o, []).

Definition bind {A B} (m : M A) (f : A -> M B) : M B :=
  match m with
  | (Return a, log) => let '(o, log') := f a in (o, log ++ log')
  | (Throw e, log) => (Throw e, log)
  end.

(** [try { m } catch (error) { handler error }] *)
Definition try_catch {A} (m : M A) (handler : js_error -> M A) : M A :=
  match m with
  | (Return a, log) => (Return a, log)
  | (Throw e, log) => let '(o, log') := handler e in (o, log ++ log')
  end.

#[global] Instance M_ret : MRet M := @ret.
#[global] Instance M_bind : MBind M := fun A B f m => bind m f.

(** The calls a computation made. *)
Definition calls {A} (m : M A) : list axios_request := snd m.

(** ** Invocation results *)

Record content_block : Type := {
  type : jsstring;
  text : jsstring
}.

(** The object a tool invocation answers with.  [isError = None] is an
    object without that property. *)
Record invocation_result : Type := {
  content : list content_block;
  isError : option bool
}.

Definition text_block (t : jsstring) : content_block :=
  {| type := lit "text"; text := t |}.

(** ** The HTTP front door: requests and responses *)

(** The route Express selects from the request's method and path; the
    [:toolName] parameter is the segment of the path after the router has
    percent-decoded it. *)
Inductive route : Type :=
| Root                              (* GET / *)
| Health                            (* GET /health *)
| Tools                             (* GET /tools *)
| ToolCall (toolName : jsstring)    (* POST /tools/:toolName *)
| Debug.                            (* GET /debug *)

(** What [express.json()] makes of the request body: it either hands the
    request on with [req.body] set, or fails the request with a status of
    its own (400 for a body that does not parse). *)
Inductive body_parse : Type :=
| ParseFailed (status : N)
| Parsed (body : value).

Record http_request : Type := {
  target : route;
  authorization : option jsstring;
  parse : body_parse
}.

(** What the router makes of the method and path of a request to one of
    the five endpoints: the route, or, for [POST /tools/<segment>], the
    failure to percent-decode the segment (as for "%E0%A4%A"). *)
Inductive routing : Type :=
| Matched (r : route)
| ToolNameUndecodable (segment : jsstring).

(** A request as it arrives, before the router has looked at its path. *)
Record incoming_request : Type := {
  path_route : routing;
  sent_authorization : option jsstring;
  body_verdict : body_parse
}.

Inductive response_body : Type :=
| ServiceStatus (status : jsstring) (service : option jsstring)
    (timestamp : jsstring)
| Catalogue (tools : list tool)
| ErrorBody (error : jsstring)
| ResultBody (result : invocation_result)
| FailureBody (error : jsstring) (result : invocation_result)
| DebugBody (hasSecret : bool) (secretLength : N) (secretPreview : jsstring)
| ParserFailure
| RouterFailure.

Record http_response : Type := {
  status : N;
  sent : response_body
}.

(** [res.json(x)] and [res.status(n).json(x)] *)
Definition res_json (x : response_body) : http_response :=
  {| status := 200; sent := x |}.
Definition res_status_json (n : N) (x : response_body) : http_response :=
  {| status := n; sent := x |}.

(** ** The server *)

Section Server.
Context `{Host}.

(** The Airtable API as seen through axios: a call is fulfilled with the
    response's [data] or rejected with an error (a status outside 2xx, a
    network failure, a timeout). *)
Variable axios : axios_request -> outcome json.

(** The constants of a running process. *)
Variable g : globals.

Definition await_axios (r : axios_request) : M json := (axios r, [r]).

(** [Bearer ${AIRTABLE_API_TOKEN}] *)
Definition authorization_header : jsstring * jsstring :=
  (lit "Authorization", lit "Bearer " ++ show (AIRTABLE_API_TOKEN g)).

Definition content_type_header : jsstring * jsstring :=
  (lit "Content-Type", lit "application/json").

(** [https://api.airtable.com/v0/${AIRTABLE_BASE_ID}/${encodeURIComponent(AIRTABLE_TABLE_NAME)}] *)
Definition table_url : outcome jsstring :=
  segment ← encodeURIComponent (show (AIRTABLE_TABLE_NAME g));
  mret (lit "https://api.airtable.com/v0/" ++ show (AIRTABLE_BASE_ID g)
        ++ lit "/" ++ segment).

(** [.../${args.recordId}] *)
Definition record_url (args : value) : outcome jsstring :=
  base ← table_url;
  recordId ← get_prop args (lit "recordId");
  id ← ToString recordId;
  mret (base ++ lit "/" ++ id).

(** The success object of the four helpers: no [isError] property. *)
Definition success (t : jsstring) : invocation_result :=
  {| content := [text_block t]; isError := None |}.

Definition getRecords (args : value) : M invocation_result :=
  maxRecords ← lift (get_prop args (lit "maxRecords"));
  let params : gmap jsstring value :=
    {[ lit "maxRecords" := js_or maxRecords (Some (JNum 10)) ]} in
  filterByFormula ← lift (get_prop args (lit "filterByFormula"));
  let params :=
    if ToBoolean filterByFormula
    then <[ lit "filterByFormula" := filterByFormula ]> params
    else params in
  view ← lift (get_prop args (lit "view"));
  let params :=
    if ToBoolean view then <[ lit "view" := view ]> params else params in
  u ← lift table_url;
  response_data ← await_axios
    {| method := GET; url := u; headers := [authorization_header];
       params := Some params; data := None |};
  mret (success (JSON_stringify response_data)).

Definition createRecord (args : value) : M invocation_result :=
  u ← lift table_url;
  fields ← lift (get_prop args (lit "fields"));
  response_data ← await_axios
    {| method := POST; url := u;
       headers := [authorization_header; content_type_header];
       params := None; data := Some {[ lit "fields" := fields ]} |};
  mret (success (lit "Record created: " ++ JSON_stringify response_data)).

Definition updateRecord (args : value) : M invocation_result :=
  u ← lift (record_url args);
  fields ← lift (get_prop args (lit "fields"));
  response_data ← await_axios
    {| method := PATCH; url := u;
       headers := [authorization_header; content_type_header];
       params := None; data := Some {[ lit "fields" := fields ]} |};
  mret (success (lit "Record updated: " ++ JSON_stringify response_data)).

Definition deleteRecord (args : value) : M invocation_result :=
  u ← lift (record_url args);
  response_data ← await_axios
    {| method := DELETE; url := u; headers := [authorization_header];
       params := None; data := None |};
  mret (success (lit "Record deleted: " ++ JSON_stringify response_data)).

(** The [catch] block of the dispatcher. *)
Definition failure (error : js_error) : invocation_result :=
  {| content := [text_block (lit "Error: " ++ message error)];
     isError := Some true |}.

Definition executeAirtableTool (toolName : jsstring) (args : value)
  : M invocation_result :=
  try_catch
    (if decide (toolName = lit "airtable_get_records") then getRecords args
     else if decide (toolName = lit "airtable_create_record")
     then createRecord args
     else if decide (toolName = lit "airtable_update_record")
     then updateRecord args
     else if decide (toolName = lit "airtable_delete_record")
     then deleteRecord args
     else throw (Error (lit "Unknown tool: " ++ toolName)))
    (fun error => mret (failure error)).

(** The [authenticate] middleware: answer 401, or call [next]. *)
Definition authenticate (req : http_request) (next : M http_response)
  : M http_response :=
  let authHeader := authorization req in
  if negb (is_set authHeader)
     || negb (bool_decide
                (authHeader = Some (lit "Bearer " ++ show (MCP_SERVER_SECRET g))))
  then mret (res_status_json 401 (ErrorBody (lit "Unauthorized")))
  else next.

(** The handler of [POST /tools/:toolName]. *)
Definition post_tool (toolName : jsstring) (args : value) : M http_response :=
  try_catch
    (result ← executeAirtableTool toolName args;
     mret (res_json (ResultBody result)))
    (fun error =>
       mret (res_status_json 500
               (FailureBody (message error) (failure error)))).

(** The handler of [GET /debug]. *)
Definition debug : http_response :=
  let secret := MCP_SERVER_SECRET g in
  res_json
    (DebugBody (is_set secret)
       (if is_set secret then js_length (show secret) else 0)
       (if is_set secret then substring0 5 (show secret) ++ lit "..."
        else lit "undefined")).

(** One request that the router matched, through the application: the
    middleware installed with [app.use] runs first ([cors()] hands every
    GET and POST on, [express.json()] parses the body), then the route's
    own chain.  [now] is [new Date().toISOString()]. *)
Definition handle (now : jsstring) (req : http_request) : M http_response :=
  match parse req with
  | ParseFailed st => mret (res_status_json st ParserFailure)
  | Parsed body =>
      match target req with
      | Root =>
          mret (res_json (ServiceStatus (lit "healthy")
                            (Some (lit "HTTP MCP Airtable Server")) now))
      | Health => mret (res_json (ServiceStatus (lit "healthy") None now))
      | Tools => authenticate req (mret (res_json (Catalogue tools)))
      | ToolCall toolName => authenticate req (post_tool toolName body)
      | Debug => mret debug
      end
  end.

(** One request as it arrives.  After the middleware installed with
    [app.use], the router matches the path; for [/tools/:toolName] it
    percent-decodes the segment, and a segment that does not decode fails
    the request with status 400 before any handler of the route, hence
    before [authenticate], runs.  A matched request goes on as [handle]
    describes. *)
Definition serve (now : jsstring) (arrival : incoming_request)
  : M http_response :=
  match body_verdict arrival with
  | ParseFailed st => mret (res_status_json st ParserFailure)
  | Parsed body =>
      match path_route arrival with
      | ToolNameUndecodable _ => mret (res_status_json 400 RouterFailure)
      | Matched r =>
          handle now {| target := r;
                        authorization := sent_authorization arrival;
                        parse := Parsed body |}
      end
  end.

End Server.

(** ** Concrete instances used to run the model *)

(** A host whose renderings are fixed texts: ["{}"] for the one payload the
    sample upstreams produce, and a fixed text for numbers, which no sample
    input puts where a string is needed. *)
Definition sample_host : Host :=
  {| JSON_stringify := fun _ => lit "{}";
     Number_toString := fun _ => lit "0";
     cannot_read_message := fun _ k =>
       lit "Cannot read properties of undefined (reading '" ++ k ++ lit "')";
     cannot_convert_message := lit "Cannot convert object to primitive value";
     uri_malformed_message := lit "URI malformed" |}.

Definition sample_env : environment :=
  list_to_map
    [ (lit "AIRTABLE_API_TOKEN", lit "patXYZ");
      (lit "AIRTABLE_BASE_ID", lit "app123");
      (lit "AIRTABLE_TABLE_NAME", lit "My Table");
      (lit "MCP_SERVER_SECRET", lit "s3cret-value") ].

Definition sample_globals : globals := load sample_env.

(** An upstream that fulfils every call with the data [{}]. *)
Definition upstream_ok (_ : axios_request) : outcome json :=
  Return (JObj ∅).

(** An upstream that rejects every call. *)
Definition upstream_404 (_ : axios_request) : outcome json :=
  Throw (AxiosError (lit "Request failed with status code 404")).

(** ** Definitions used to state the properties *)

(** The names in the catalogue. *)
Definition tool_names : list jsstring := map name tools.

(** The text that precedes the serialized payload in a success message. *)
Definition success_prefix (toolName : jsstring) : jsstring :=
  if decide (toolName = lit "airtable_get_records") then []
  else if decide (toolName = lit "airtable_create_record")
  then lit "Record created: "
  else if decide (toolName = lit "airtable_update_record")
  then lit "Record updated: "
  else lit "Record deleted: ".

(** The caller's argument object has a property [k] of its own. *)
Definition supplies (args : value) (k : jsstring) : Prop :=
  exists props v, args = Some (JObj props) /\ props !! k = Some v.

(** [args.k] where reading does not throw, [undefined] where it does. *)
Definition read `{Host} (args : value) (k : jsstring) : value :=
  match get_prop args k with
  | Return v => v
  | Throw _ => undefined
  end.

(** The endpoints registered with [authenticate]. *)
Definition protected (r : route) : bool :=
  match r with
  | Tools | ToolCall _ => true
  | _ => false
  end.

(** The value of an upper-case hexadecimal digit. *)
Definition hex_value (c : N) : option N :=
  if in_range 48 57 c then Some (c - 48)
  else if in_range 65 70 c then Some (c - 55)
  else None.

(** One pass of percent-decoding, to octets. *)
Fixpoint percent_decode (s : jsstring) : option (list N) :=
  match s with
  | [] => Some []
  | c :: rest =>
      if c =? 37 then
        match rest with
        | h :: l :: rest' =>
            match hex_value h, hex_value l, percent_decode rest' with
            | Some a, Some b, Some r => Some (16 * a + b :: r)
            | _, _, _ => None
            end
        | _ => None
        end
      else option_map (cons c) (percent_decode rest)
  end.

(** The UTF-8 octets of a string, [None] on an unpaired surrogate. *)
Fixpoint utf8_string (s : jsstring) : option (list N) :=
  match s with
  | [] => Some []
  | c :: rest =>
      if is_lead c then
        match rest with
        | d :: rest' =>
            if is_trail d
            then option_map (app (utf8 (pair_code_point c d))) (utf8_string rest')
            else None
        | [] => None
        end
      else if is_trail c then None
      else option_map (app (utf8 c)) (utf8_string rest)
  end.

(** The characters an encoded segment is made of. *)
Definition url_safe (c : N) : bool := uriUnreserved c || (c =? 37).

(** *** How a dispatch runs *)

Section Vocabulary.
Context `{Host}.
Variable axios : axios_request -> outcome json.
Variable g : globals.

(** What awaiting one call and wrapping its data amounts to. *)
Definition settle (prefix : jsstring) (req : axios_request)
  : outcome invocation_result :=
  match axios req with
  | Return d => Return (success (prefix ++ JSON_stringify d))
  | Throw e => Throw e
  end.

(** A helper either throws before it reaches axios, or makes exactly one
    call and settles with it. *)
Inductive helper_run (prefix : jsstring) (m : M invocation_result) : Prop :=
| threw_early (e : js_error) : m = (Throw e, []) -> helper_run prefix m
| called_once (req : axios_request) :
    m = (settle prefix req, [req]) -> helper_run prefix m.

(** The helper the [switch] selects. *)
Definition selected (toolName : jsstring) (args : value)
  : M invocation_result :=
  if decide (toolName = lit "airtable_get_records")
  then getRecords axios g args
  else if decide (toolName = lit "airtable_create_record")
  then createRecord axios g args
  else if decide (toolName = lit "airtable_update_record")
  then updateRecord axios g args
  else if decide (toolName = lit "airtable_delete_record")
  then deleteRecord axios g args
  else throw (Error (lit "Unknown tool: " ++ toolName)).

(** The result the dispatcher makes of the outcome of a call. *)
Definition wrapped (prefix : jsstring) (req : axios_request)
  : invocation_result :=
  match axios req with
  | Return d => success (prefix ++ JSON_stringify d)
  | Throw e => failure e
  end.

(** The query object [getRecords] builds. *)
Definition list_query (args : value) : gmap jsstring value :=
  let query : gmap jsstring value :=
    {[ lit "maxRecords" :=
         js_or (read args (lit "maxRecords")) (Some (JNum 10)) ]} in
  let query :=
    if ToBoolean (read args (lit "filterByFormula"))
    then <[ lit "filterByFormula" := read args (lit "filterByFormula") ]> query
    else query in
  if ToBoolean (read args (lit "view"))
  then <[ lit "view" := read args (lit "view") ]> query
  else query.

End Vocabulary.

(** Octets are below 256. *)
Definition octets (l : list N) : Prop := Forall (fun o => o < 256) l.

(** What a successful encoding is made of, and what one pass of
    decoding gives back. *)
Definition encoded (s segment : jsstring) : Prop :=
  forallb url_safe segment = true
  /\ exists bytes, utf8_string s = Some bytes
                   /\ percent_decode segment = Some bytes.

(** The four variables line 15 requires. *)
Definition required_variables : list jsstring :=
  [ lit "AIRTABLE_API_TOKEN"; lit "AIRTABLE_BASE_ID";
    lit "AIRTABLE_TABLE_NAME"; lit "MCP_SERVER_SECRET" ].

(** The success clause as the specification words it: the result of a
    fulfilled call has [isError] equal to [false]. *)
Definition success_has_isError_false `{Host}
  (axios : axios_request -> outcome json) (g : globals)
  (toolName : jsstring) (args : value) : Prop :=
  forall req d,
    req ∈ calls (executeAirtableTool axios g toolName args) ->
    axios req = Return d ->
    fst (executeAirtableTool axios g toolName args)
    = Return {| content :=
                  [text_block (success_prefix toolName ++ JSON_stringify d)];
                isError := Some false |}.

(** The requests to a protected endpoint: [GET /tools] and
    [POST /tools/<segment>], whether or not the segment decodes. *)
Definition protected_arrival (r : routing) : bool :=
  match r with
  | Matched r => protected r
  | ToolNameUndecodable _ => true
  end.

(** The authentication clause as the specification words it: a protected
    request without the right header is answered 401 with
    [{error: "Unauthorized"}] and makes no upstream call. *)
Definition unauthorized_is_401 `{Host}
  (axios : axios_request -> outcome json) (g : globals)
  (now : jsstring) (arrival : incoming_request) : Prop :=
  protected_arrival (path_route arrival) = true ->
  sent_authorization arrival
  <> Some (lit "Bearer " ++ show (MCP_SERVER_SECRET g)) ->
  serve axios g now arrival
  = (Return {| status := 401; sent := ErrorBody (lit "Unauthorized") |}, []).

(** The list clause as the specification words it: [maxRecords] is always
    sent, 10 when omitted, and each of [filterFormula] and [view] is sent
    exactly when the caller supplies it. *)
Definition list_parameters_as_supplied `{Host}
  (axios : axios_request -> outcome json) (g : globals) (args : value) : Prop :=
  forall req,
    req ∈ calls (executeAirtableTool axios g (lit "airtable_get_records") args) ->
    exists query,
      params req = Some query
      /\ is_Some (query !! lit "maxRecords")
      /\ (~ supplies args (lit "maxRecords") ->
          query !! lit "maxRecords" = Some (Some (JNum 10)))
      /\ forall k, k = lit "filterFormula" \/ k = lit "view" ->
           (supplies args k <-> is_Some (query !! k)).

(** Two values of a query parameter that reach the URL as [0]: the number
    zero, and the string "0", which is written with its own text.  Other
    texts may read as zero too; the predicate is used only to exhibit one
    request for zero records. *)
Definition asks_for_zero (m : value) : bool :=
  match m with
  | Some (JNum n) => PrimFloat.eqb n 0%float
  | Some (JStr s) => bool_decide (s = lit "0")
  | _ => false
  end.

(** The default clause as the specification words it: a falsy
    [maxRecords] becomes 10, so that no caller can ask for zero records. *)
Definition no_caller_requests_zero `{Host}
  (axios : axios_request -> outcome json) (g : globals) (args : value) : Prop :=
  forall req,
    req ∈ calls (executeAirtableTool axios g (lit "airtable_get_records") args) ->
    exists query m,
      params req = Some query
      /\ query !! lit "maxRecords" = Some m
      /\ (ToBoolean (read args (lit "maxRecords")) = false ->
          m = Some (JNum 10))
      /\ asks_for_zero m = false.

Definition sample_now : jsstring := lit "2024-01-01T00:00:00.000Z".

(** An environment in which the server secret is not set. *)
Definition env_without_secret : environment :=
  delete (lit "MCP_SERVER_SECRET") sample_env.

(** The arguments of the creation scenario: [{"fields": {"Name": "Ada"}}]. *)
Definition ada_fields : value :=
  Some (JObj {[ lit "fields" := JObj {[ lit "Name" := JStr (lit "Ada") ]} ]}).

(** The deletion scenario: [{"recordId": "rec123"}]. *)
Definition rec123 : value :=
  Some (JObj {[ lit "recordId" := JStr (lit "rec123") ]}).

Definition delete_rec123 : axios_request :=
  {| method := DELETE;
     url := lit "https://api.airtable.com/v0/app123/My%20Table/rec123";
     headers := [ (lit "Authorization", lit "Bearer patXYZ") ];
     params := None; data := None |}.

(** A POST to [/tools/airtable_get_records] without an Authorization
    header whose JSON body does not parse. *)
Definition malformed_post : incoming_request :=
  {| path_route := Matched (ToolCall (lit "airtable_get_records"));
     sent_authorization := None;
     body_verdict := ParseFailed 400 |}.

(** A POST to [/tools/%E0%A4%A] without an Authorization header and with
    the body [{}]: the segment does not percent-decode. *)
Definition undecodable_post : incoming_request :=
  {| path_route := ToolNameUndecodable (lit "%E0%A4%A");
     sent_authorization := None;
     body_verdict := Parsed (Some (JObj ∅)) |}.

(** [GET /tools] with [Authorization: Bearer wrong]. *)
Definition wrong_bearer : incoming_request :=
  {| path_route := Matched Tools;
     sent_authorization := Some (lit "Bearer wrong");
     body_verdict := Parsed (Some (JObj ∅)) |}.

(** The creation scenario: an authenticated POST with
    [{"fields": {"Name": "Ada"}}]. *)
Definition create_ada : http_request :=
  {| target := ToolCall (lit "airtable_create_record");
     authorization := Some (lit "Bearer s3cret-value");
     parse := Parsed ada_fields |}.

(** [{"view": s}] with [s] the empty string. *)
Definition empty_view : value := Some (JObj {[ lit "view" := JStr [] ]}).

(** [{"filterFormula": "{Status}='Open'"}] *)
Definition formula_under_spec_name : value :=
  Some (JObj {[ lit "filterFormula" := JStr (lit "{Status}='Open'") ]}).

(** [{"maxRecords": 0}] *)
Definition zero_records : value :=
  Some (JObj {[ lit "maxRecords" := JNum 0 ]}).

(** [{"maxRecords": "0"}] *)
Definition zero_as_text : value :=
  Some (JObj {[ lit "maxRecords" := JStr (lit "0") ]}).

(** [{"recordId": "rec/1?x", "fields": {}}] *)
Definition odd_record_id : value :=
  Some (JObj (<[ lit "recordId" := JStr (lit "rec/1?x") ]>
                {[ lit "fields" := JObj ∅ ]})).

Definition patch_odd_record : axios_request :=
  {| method := PATCH;
     url := lit "https://api.airtable.com/v0/app123/My%20Table/rec/1?x";
     headers := [ (lit "Authorization", lit "Bearer patXYZ");
                  (lit "Content-Type", lit "application/json") ];
     params := None;
     data := Some {[ lit "fields" := Some (JObj ∅) ]} |}.

(** ** Definitions used to state the further properties *)

(** [undefined] and [null]: the values no property can be read from. *)
Definition nullish (v : value) : bool :=
  match v with
  | None | Some JNull => true
  | Some _ => false
  end.

Section RequestVocabulary.
Context `{Host}.
Variable g : globals.

(** The request of [getRecords] to the address [u]. *)
Definition list_request (u : jsstring) (args : value) : axios_request :=
  {| method := GET; url := u; headers := [authorization_header g];
     params := Some (list_query args); data := None |}.

(** The request of [createRecord] ([POST]) and of [updateRecord]
    ([PATCH]) to the address [u]. *)
Definition write_request (m : verb) (u : jsstring) (args : value)
  : axios_request :=
  {| method := m; url := u;
     headers := [authorization_header g; content_type_header];
     params := None;
     data := Some {[ lit "fields" := read args (lit "fields") ]} |}.

(** The request of [deleteRecord] to the address [u]. *)
Definition delete_request (u : jsstring) : axios_request :=
  {| method := DELETE; url := u; headers := [authorization_header g];
     params := None; data := None |}.

(** The address of the table: the text before the encoded table name. *)
Definition table_address (segment : jsstring) : jsstring :=
  lit "https://api.airtable.com/v0/" ++ show (AIRTABLE_BASE_ID g)
  ++ lit "/" ++ segment.

End RequestVocabulary.

(** The verb each tool uses. *)
Definition verb_of (toolName : jsstring) : verb :=
  if decide (toolName = lit "airtable_get_records") then GET
  else if decide (toolName = lit "airtable_create_record") then POST
  else if decide (toolName = lit "airtable_update_record") then PATCH
  else DELETE.

(** [{}] *)
Definition no_arguments : value := Some (JObj ∅).

(** An environment whose table name needs no escaping. *)
Definition plain_env : environment :=
  <[ lit "AIRTABLE_TABLE_NAME" := lit "Tasks" ]> sample_env.

(** An environment whose API token is set, to the empty string. *)
Definition env_empty_token : environment :=
  <[ lit "AIRTABLE_API_TOKEN" := [] ]> sample_env.

(** An environment whose server secret has three characters. *)
Definition env_short_secret : environment :=
  <[ lit "MCP_SERVER_SECRET" := lit "abc" ]> sample_env.

(** The catalogue entry of the delete tool. *)
Definition delete_tool : tool :=
  {| name := lit "airtable_delete_record";
     description := lit "Delete a record from Airtable table";
     properties :=
       [ {| prop_name := lit "recordId"; prop_type := lit "string";
            prop_default := None |} ];
     required := [lit "recordId"] |}.

(** [{"recordId": "rec123"}] and the same with a key the schema does not
    declare, [{"recordId": "rec123", "force": true}]. *)
Definition rec123_props : gmap jsstring json :=
  {[ lit "recordId" := JStr (lit "rec123") ]}.
Definition rec123_props_more : gmap jsstring json :=
  <[ lit "force" := JBool true ]> rec123_props.

(** The request [createRecord] sends for [{"fields": {"Name": "Ada"}}]. *)
Definition post_ada : axios_request :=
  {| method := POST;
     url := lit "https://api.airtable.com/v0/app123/My%20Table";
     headers := [ (lit "Authorization", lit "Bearer patXYZ");
                  (lit "Content-Type", lit "application/json") ];
     params := None;
     data := Some {[ lit "fields" :=
                       Some (JObj {[ lit "Name" := JStr (lit "Ada") ]}) ]} |}.

(** The request [getRecords] sends for [{}] when the table is "Tasks". *)
Definition get_tasks : axios_request :=
  {| method := GET;
     url := lit "https://api.airtable.com/v0/app123/Tasks";
     headers := [ (lit "Authorization", lit "Bearer patXYZ") ];
     params := Some {[ lit "maxRecords" := Some (JNum 10) ]};
     data := None |}.

(** An authorized POST to a tool the catalogue does not hold. *)
Definition drop_table_call : http_request :=
  {| target := ToolCall (lit "airtable_drop_table");
     authorization := Some (lit "Bearer s3cret-value");
     parse := Parsed no_arguments |}.

(** [GET /tools] with the right header. *)
Definition list_tools_authorized : http_request :=
  {| target := Tools;
     authorization := Some (lit "Bearer s3cret-value");
     parse := Parsed no_arguments |}.

(** [GET /health] without a header, and with a wrong one. *)
Definition health_check : http_request :=
  {| target := Health; authorization := None; parse := Parsed undefined |}.
Definition health_check_wrong_bearer : http_request :=
  {| target := Health; authorization := Some (lit "Bearer wrong");
     parse := Parsed no_arguments |}.

(** * Properties *)

(** ** How a dispatch runs *)

Section Dispatch.
Context `{Host}.
Variable axios : axios_request -> outcome json.
Variable g : globals.

Lemma lift_bind {A B} (o : outcome A) (k : A -> M B) :
  lift o ≫= k = match o with Return a => k a | Throw e => (Throw e, []) end.
Proof.
  destruct o as [a|e]; [|reflexivity].
  unfold mbind, M_bind, bind, lift. destruct (k a); reflexivity.
Qed.

Lemma await_bind (req : axios_request) (prefix : jsstring) :
  await_axios axios req ≫=
    (fun d => mret (success (prefix ++ JSON_stringify d)))
  = (settle axios prefix req, [req]).
Proof.
  unfold mbind, M_bind, bind, await_axios, settle.
  destruct (axios req); reflexivity.
Qed.

Ltac step :=
  rewrite lift_bind;
  match goal with
  | |- helper_run _ _ (match ?o with _ => _ end) =>
      let e := fresh "e" in
      destruct o as [?|e] eqn:?; [|eapply threw_early; reflexivity]
  end.

Lemma getRecords_run args : helper_run axios [] (getRecords axios g args).
Proof.
  unfold getRecords. do 4 step.
  eapply called_once. apply (await_bind _ []).
Qed.

Lemma createRecord_run args :
  helper_run axios (lit "Record created: ") (createRecord axios g args).
Proof.
  unfold createRecord. do 2 step. eapply called_once. apply await_bind.
Qed.

Lemma updateRecord_run args :
  helper_run axios (lit "Record updated: ") (updateRecord axios g args).
Proof.
  unfold updateRecord. do 2 step. eapply called_once. apply await_bind.
Qed.

Lemma deleteRecord_run args :
  helper_run axios (lit "Record deleted: ") (deleteRecord axios g args).
Proof.
  unfold deleteRecord. step. eapply called_once. apply await_bind.
Qed.

Lemma executeAirtableTool_selected toolName args :
  executeAirtableTool axios g toolName args
  = try_catch (selected axios g toolName args) (fun error => mret (failure error)).
Proof. reflexivity. Qed.

Lemma registered_cases toolName :
  toolName ∈ tool_names ->
  toolName = lit "airtable_get_records"
  \/ toolName = lit "airtable_create_record"
  \/ toolName = lit "airtable_update_record"
  \/ toolName = lit "airtable_delete_record".
Proof.
  unfold tool_names, tools. cbn [map name].
  rewrite !elem_of_cons, elem_of_nil. tauto.
Qed.

Lemma selected_unknown toolName args :
  toolName ∉ tool_names ->
  selected axios g toolName args = throw (Error (lit "Unknown tool: " ++ toolName)).
Proof.
  intros Hn. unfold selected.
  repeat (destruct (decide _) as [->|?];
          [exfalso; apply Hn; unfold tool_names, tools; cbn [map name];
           set_solver|]).
  reflexivity.
Qed.

Lemma selected_run toolName args :
  toolName ∈ tool_names ->
  helper_run axios (success_prefix toolName) (selected axios g toolName args).
Proof.
  intros _. unfold selected, success_prefix.
  repeat (destruct (decide _);
          [auto using getRecords_run, createRecord_run, updateRecord_run,
             deleteRecord_run|]).
  eapply threw_early. reflexivity.
Qed.

(** Every dispatch returns a result: an error result without any call, or
    the outcome of its single call wrapped. *)
Lemma executeAirtableTool_run toolName args :
  (exists e, executeAirtableTool axios g toolName args
             = (Return (failure e), []))
  \/ (exists req, executeAirtableTool axios g toolName args
                  = (Return (wrapped axios (success_prefix toolName) req), [req])).
Proof.
  rewrite executeAirtableTool_selected.
  destruct (decide (toolName ∈ tool_names)) as [Hin|Hout].
  - destruct (selected_run toolName args Hin) as [e ->|req ->].
    + left. exists e. reflexivity.
    + right. exists req. unfold try_catch, settle, wrapped.
      destruct (axios req); reflexivity.
  - left. rewrite (selected_unknown _ _ Hout). eexists. reflexivity.
Qed.

End Dispatch.

(** ** The Operation Dispatcher *)

Section DispatcherProperties.
Context `{Host}.
Variable axios : axios_request -> outcome json.
Variable g : globals.

(** C1, amended.  When the upstream call of a dispatch is fulfilled with
    data [d], the dispatcher returns a result with one text block and no
    [isError] property at all (the property is absent, not [false]); the
    text is the serialized payload for the list operation, and the
    payload after "Record created: ", "Record updated: " or
    "Record deleted: " for the other three. *)
Theorem success_result_has_prefix_and_no_isError
  (toolName : jsstring) (args : value) (req : axios_request) (d : json) :
  req ∈ calls (executeAirtableTool axios g toolName args) ->
  axios req = Return d ->
  exists t,
    executeAirtableTool axios g toolName args
    = (Return {| content := [ {| type := lit "text"; text := t |} ];
                 isError := None |}, [req])
    /\ ((toolName = lit "airtable_get_records" /\ t = JSON_stringify d)
        \/ (toolName = lit "airtable_create_record"
            /\ t = lit "Record created: " ++ JSON_stringify d)
        \/ (toolName = lit "airtable_update_record"
            /\ t = lit "Record updated: " ++ JSON_stringify d)
        \/ (toolName = lit "airtable_delete_record"
            /\ t = lit "Record deleted: " ++ JSON_stringify d)).
Proof.
  intros Hin Hok.
  destruct (executeAirtableTool_run axios g toolName args)
    as [[e E]|[req' E]]; rewrite E in Hin |- *; cbn [calls snd] in Hin.
  { apply elem_of_nil in Hin. destruct Hin. }
  apply list_elem_of_singleton in Hin. subst req'.
  unfold wrapped. rewrite Hok.
  exists (success_prefix toolName ++ JSON_stringify d).
  split; [reflexivity|].
  assert (Hreg : toolName ∈ tool_names).
  { destruct (decide (toolName ∈ tool_names)) as [?|Hout]; [assumption|].
    rewrite executeAirtableTool_selected, (selected_unknown _ _ _ _ Hout) in E.
    discriminate E. }
  destruct (registered_cases toolName Hreg) as [-> | [-> | [-> | ->] ] ];
    [left|right; left|right; right; left|right; right; right];
    split; reflexivity.
Qed.

(** C2.  An operation name outside the four registered ones is answered
    with the result [{content: [text "Error: Unknown tool: <name>"],
    isError: true}]; the log of upstream calls is empty and the
    dispatcher returns (it does not throw). *)
Theorem unknown_tool_is_error_result (toolName : jsstring) (args : value) :
  toolName ∉ tool_names ->
  executeAirtableTool axios g toolName args
  = (Return {| content :=
                 [ {| type := lit "text";
                      text := lit "Error: Unknown tool: " ++ toolName |} ];
               isError := Some true |}, []).
Proof.
  intros Hout.
  rewrite executeAirtableTool_selected, (selected_unknown _ _ _ _ Hout).
  reflexivity.
Qed.

(** C3.  For every operation name and every argument value the
    dispatcher returns a result: it never throws, whatever the upstream
    does and whether or not a call is made.  And when the upstream call of
    the dispatch is rejected with an error, the result returned is
    [{content: [text "Error: " + error.message], isError: true}]. *)
Theorem upstream_failure_is_error_result
  (toolName : jsstring) (args : value) :
  (exists result,
     fst (executeAirtableTool axios g toolName args) = Return result)
  /\ forall req e,
       req ∈ calls (executeAirtableTool axios g toolName args) ->
       axios req = Throw e ->
       fst (executeAirtableTool axios g toolName args)
       = Return {| content :=
                     [ {| type := lit "text";
                          text := lit "Error: " ++ message e |} ];
                   isError := Some true |}.
Proof.
  destruct (executeAirtableTool_run axios g toolName args)
    as [[e' E]|[req' E]]; rewrite E; cbn [calls fst snd].
  - split; [eexists; reflexivity|].
    intros req e Hin _. apply elem_of_nil in Hin. destruct Hin.
  - split; [eexists; reflexivity|].
    intros req e Hin Hfail. apply list_elem_of_singleton in Hin. subst req'.
    unfold wrapped. rewrite Hfail. reflexivity.
Qed.

End DispatcherProperties.

(** C1 as worded fails: creating a record against an upstream that
    fulfils the call yields a result whose [isError] is absent. *)
Lemma success_isError_is_not_false :
  ~ success_has_isError_false (H := sample_host) upstream_ok sample_globals
      (lit "airtable_create_record") ada_fields.
Proof.
  intros Hc.
  assert (E : exists req,
             executeAirtableTool (H := sample_host) upstream_ok sample_globals
               (lit "airtable_create_record") ada_fields
             = (Return (success (lit "Record created: {}")), [req])).
  { vm_compute. eexists. reflexivity. }
  destruct E as [req E].
  specialize (Hc req (JObj ∅)).
  rewrite E in Hc. cbn [calls fst snd] in Hc.
  specialize (Hc (list_elem_of_here _ _) eq_refl).
  discriminate Hc.
Qed.

Lemma success_result_has_prefix_and_no_isError_witness :
  exists req t,
    executeAirtableTool (H := sample_host) upstream_ok sample_globals
      (lit "airtable_create_record") ada_fields
    = (Return {| content := [ {| type := lit "text"; text := t |} ];
                 isError := None |}, [req])
    /\ t = lit "Record created: {}".
Proof.
  assert (E : exists req,
             executeAirtableTool (H := sample_host) upstream_ok sample_globals
               (lit "airtable_create_record") ada_fields
             = (Return (success (lit "Record created: {}")), [req])).
  { vm_compute. eexists. reflexivity. }
  destruct E as [req E].
  destruct (success_result_has_prefix_and_no_isError (H := sample_host)
              upstream_ok sample_globals (lit "airtable_create_record")
              ada_fields req (JObj ∅)) as [t [Ht Hcase]].
  - rewrite E. apply list_elem_of_here.
  - reflexivity.
  - exists req, t. split; [exact Ht|].
    destruct Hcase as [ [Hn _] | [ [_ Ht'] | [ [Hn _] | [Hn _] ] ] ];
      solve [exact Ht' | discriminate Hn].
Defined.

Lemma unknown_tool_is_error_result_witness :
  executeAirtableTool (H := sample_host) upstream_ok sample_globals
    (lit "airtable_drop_table") ada_fields
  = (Return {| content :=
                 [ {| type := lit "text";
                      text := lit "Error: Unknown tool: airtable_drop_table" |} ];
               isError := Some true |}, []).
Proof.
  apply (unknown_tool_is_error_result (H := sample_host) upstream_ok
           sample_globals (lit "airtable_drop_table") ada_fields).
  intros Hin. apply registered_cases in Hin.
  destruct Hin as [Hn|[Hn|[Hn|Hn]]]; discriminate Hn.
Defined.

Lemma upstream_failure_is_error_result_witness :
  fst (executeAirtableTool (H := sample_host) upstream_404 sample_globals
         (lit "airtable_delete_record") rec123)
  = Return {| content :=
                [ {| type := lit "text";
                     text := lit "Error: Request failed with status code 404" |} ];
              isError := Some true |}.
Proof.
  apply (proj2 (upstream_failure_is_error_result (H := sample_host)
                  upstream_404 sample_globals (lit "airtable_delete_record")
                  rec123)
           delete_rec123
           (AxiosError (lit "Request failed with status code 404"))).
  - vm_compute. apply list_elem_of_here.
  - reflexivity.
Defined.

(** ** The HTTP front door *)

Section FrontDoor.
Context `{Host}.
Variable axios : axios_request -> outcome json.
Variable g : globals.

Lemma authenticate_rejects req next :
  authorization req <> Some (lit "Bearer " ++ show (MCP_SERVER_SECRET g)) ->
  authenticate g req next
  = mret (res_status_json 401 (ErrorBody (lit "Unauthorized"))).
Proof.
  intros Hne. unfold authenticate.
  rewrite (bool_decide_eq_false_2 _ Hne).
  rewrite orb_true_r. reflexivity.
Qed.

Lemma authenticate_accepts req next :
  authorization req = Some (lit "Bearer " ++ show (MCP_SERVER_SECRET g)) ->
  authenticate g req next = next.
Proof.
  intros He. unfold authenticate.
  rewrite (bool_decide_eq_true_2 _ He), He. reflexivity.
Qed.

(** C4, amended.  A request to a protected endpoint ([GET /tools] or
    [POST /tools/:toolName]) whose Authorization header is absent or
    differs from "Bearer " followed by the server secret never reaches
    the dispatcher: the log of upstream calls is empty and the response
    does not depend on the upstream.  When [express.json()] accepted the
    body and the router matched the path (for [/tools/:toolName]: the
    segment percent-decodes) the response is 401 with
    [{error: "Unauthorized"}].  When the parser rejected the body the
    response is the parser's own failure, and when the segment does not
    decode it is the router's 400; both are sent before [authenticate]
    runs. *)
Theorem unauthorized_never_dispatches
  (now : jsstring) (arrival : incoming_request) :
  protected_arrival (path_route arrival) = true ->
  sent_authorization arrival
  <> Some (lit "Bearer " ++ show (MCP_SERVER_SECRET g)) ->
  calls (serve axios g now arrival) = []
  /\ (forall body r,
        body_verdict arrival = Parsed body ->
        path_route arrival = Matched r ->
        serve axios g now arrival
        = (Return {| status := 401; sent := ErrorBody (lit "Unauthorized") |},
           []))
  /\ (forall st,
        body_verdict arrival = ParseFailed st ->
        serve axios g now arrival
        = (Return {| status := st; sent := ParserFailure |}, []))
  /\ (forall body segment,
        body_verdict arrival = Parsed body ->
        path_route arrival = ToolNameUndecodable segment ->
        serve axios g now arrival
        = (Return {| status := 400; sent := RouterFailure |}, [])).
Proof.
  intros Hprot Hauth. unfold serve.
  destruct (body_verdict arrival) as [st|body] eqn:Hbody.
  { split; [reflexivity|]. split; [intros ? ? Hb; discriminate Hb|].
    split; [|intros ? ? Hb; discriminate Hb].
    intros st' Hs. injection Hs as <-. reflexivity. }
  destruct (path_route arrival) as [r|segment] eqn:Hpath.
  - assert (E : handle axios g now
                  {| target := r;
                     authorization := sent_authorization arrival;
                     parse := Parsed body |}
                = (Return {| status := 401;
                             sent := ErrorBody (lit "Unauthorized") |}, [])).
    { unfold handle. cbn [parse target].
      destruct r; try discriminate Hprot;
        apply authenticate_rejects; exact Hauth. }
    rewrite E. split; [reflexivity|]. split; [intros ? ? _ _; reflexivity|].
    split; [intros ? Hs; discriminate Hs|intros ? ? _ Hr; discriminate Hr].
  - split; [reflexivity|]. split; [intros ? ? _ Hr; discriminate Hr|].
    split; [intros ? Hs; discriminate Hs|intros ? ? _ _; reflexivity].
Qed.

(** The handler of [POST /tools/:toolName] answers 200 with the
    dispatcher's result, whatever the dispatcher was given. *)
Lemma post_tool_200 toolName args :
  exists result,
    fst (post_tool axios g toolName args) = Return (res_json (ResultBody result)).
Proof.
  unfold post_tool.
  destruct (executeAirtableTool_run axios g toolName args)
    as [[e E]|[req E]]; rewrite E; eexists; reflexivity.
Qed.

(** C10.  An authenticated [POST /tools/:toolName] whose body
    [express.json()] accepted is answered with status 200 and the
    dispatcher's result, for every tool name and every argument value:
    the [catch] branch that answers 500 is never taken. *)
Theorem authenticated_post_is_200
  (now : jsstring) (req : http_request) (toolName : jsstring) (args : value) :
  target req = ToolCall toolName ->
  authorization req = Some (lit "Bearer " ++ show (MCP_SERVER_SECRET g)) ->
  parse req = Parsed args ->
  exists result,
    fst (handle axios g now req)
    = Return {| status := 200; sent := ResultBody result |}
    /\ fst (executeAirtableTool axios g toolName args) = Return result
    /\ forall error,
         fst (handle axios g now req)
         <> Return {| status := 500;
                      sent := FailureBody (message error) (failure error) |}.
Proof.
  intros Htarget Hauth Hparse. unfold handle.
  rewrite Hparse, Htarget, (authenticate_accepts _ _ Hauth).
  unfold post_tool.
  destruct (executeAirtableTool_run axios g toolName args)
    as [[e E]|[r E]]; rewrite E; eexists;
    (split; [reflexivity|split; [reflexivity|intros ? [=]]]).
Qed.

End FrontDoor.

(** C4 as worded fails: a request whose body does not parse is answered
    by the body parser, and a request whose tool name does not
    percent-decode is answered by the router, in both cases with 400 and
    before [authenticate] is reached. *)
Lemma failure_before_authenticate_is_not_401 :
  ~ unauthorized_is_401 (H := sample_host) upstream_ok sample_globals
      sample_now malformed_post
  /\ ~ unauthorized_is_401 (H := sample_host) upstream_ok sample_globals
        sample_now undecodable_post.
Proof.
  split; intros Hc; unfold unauthorized_is_401 in Hc.
  - assert (E : serve (H := sample_host) upstream_ok sample_globals
                  sample_now malformed_post
                = (Return {| status := 400; sent := ParserFailure |}, []))
      by reflexivity.
    rewrite E in Hc. specialize (Hc eq_refl).
    assert (Hne : sent_authorization malformed_post
                  <> Some (lit "Bearer "
                           ++ show (MCP_SERVER_SECRET sample_globals)))
      by discriminate.
    specialize (Hc Hne). discriminate Hc.
  - assert (E : serve (H := sample_host) upstream_ok sample_globals
                  sample_now undecodable_post
                = (Return {| status := 400; sent := RouterFailure |}, []))
      by reflexivity.
    rewrite E in Hc. specialize (Hc eq_refl).
    assert (Hne : sent_authorization undecodable_post
                  <> Some (lit "Bearer "
                           ++ show (MCP_SERVER_SECRET sample_globals)))
      by discriminate.
    specialize (Hc Hne). discriminate Hc.
Qed.

Lemma unauthorized_never_dispatches_witness :
  serve (H := sample_host) upstream_ok sample_globals sample_now wrong_bearer
  = (Return {| status := 401; sent := ErrorBody (lit "Unauthorized") |}, []).
Proof.
  destruct (unauthorized_never_dispatches (H := sample_host) upstream_ok
              sample_globals sample_now wrong_bearer) as (_ & H401 & _).
  - reflexivity.
  - vm_compute. discriminate.
  - apply (H401 (Some (JObj ∅)) Tools); reflexivity.
Defined.

Lemma authenticated_post_is_200_witness :
  exists result,
    fst (handle (H := sample_host) upstream_404 sample_globals sample_now
           create_ada)
    = Return {| status := 200; sent := ResultBody result |}.
Proof.
  destruct (authenticated_post_is_200 (H := sample_host) upstream_404
              sample_globals sample_now create_ada
              (lit "airtable_create_record") ada_fields)
    as (result & Hresult & _).
  - reflexivity.
  - vm_compute. reflexivity.
  - reflexivity.
  - exists result. exact Hresult.
Defined.

(** ** Startup and the debug endpoint *)

Lemma missing_configuration_absent env k :
  k ∈ required_variables -> env !! k = None ->
  missing_configuration (load env) = true.
Proof.
  unfold required_variables. rewrite !elem_of_cons, elem_of_nil.
  intros [-> | [-> | [-> | [-> | [] ] ] ] ] Hnone;
    unfold missing_configuration, load;
    cbn [AIRTABLE_API_TOKEN AIRTABLE_BASE_ID AIRTABLE_TABLE_NAME
         MCP_SERVER_SECRET];
    rewrite Hnone; cbn [is_set negb orb];
    rewrite ?orb_true_r; reflexivity.
Qed.

Lemma main_missing env :
  missing_configuration (load env) = true ->
  main env
  = [ ConsoleLog (lit "Starting HTTP MCP Airtable Server...");
      ConsoleError (lit "Missing required environment variables");
      ConsoleError (lit "Required: AIRTABLE_API_TOKEN, AIRTABLE_BASE_ID, AIRTABLE_TABLE_NAME, MCP_SERVER_SECRET");
      ProcessExit 1 ].
Proof. intros Hm. unfold main. rewrite Hm. reflexivity. Qed.

Lemma main_complete env :
  missing_configuration (load env) = false ->
  main env
  = [ ConsoleLog (lit "Starting HTTP MCP Airtable Server...");
      Listen (PORT (load env)) (lit "0.0.0.0") ].
Proof. intros Hm. unfold main. rewrite Hm. reflexivity. Qed.

Lemma listen_complete env p host :
  Listen p host ∈ main env -> missing_configuration (load env) = false.
Proof.
  intros Hin.
  destruct (missing_configuration (load env)) eqn:Hm; [|reflexivity].
  rewrite (main_missing env Hm) in Hin.
  rewrite !elem_of_cons, elem_of_nil in Hin.
  destruct Hin as [Hx | [Hx | [Hx | [Hx | [] ] ] ] ]; discriminate Hx.
Qed.

Lemma is_set_nonempty (x : option jsstring) (s : jsstring) :
  is_set x = true -> x = Some s -> s <> [].
Proof. intros Hx -> ->. discriminate Hx. Qed.

Lemma complete_all_set (g : globals) :
  missing_configuration g = false ->
  is_set (AIRTABLE_API_TOKEN g) = true /\ is_set (AIRTABLE_BASE_ID g) = true
  /\ is_set (AIRTABLE_TABLE_NAME g) = true
  /\ is_set (MCP_SERVER_SECRET g) = true.
Proof.
  unfold missing_configuration.
  destruct (is_set (AIRTABLE_API_TOKEN g)), (is_set (AIRTABLE_BASE_ID g)),
    (is_set (AIRTABLE_TABLE_NAME g)), (is_set (MCP_SERVER_SECRET g));
    cbn; intros Hm; try discriminate Hm; repeat split.
Qed.

(** C7.  When one of the four required variables is absent from the
    environment, the module body ends in [process.exit(1)], a non-zero
    status, and never reaches [app.listen].  The check is made by the
    module body, once, before [app.listen]: in every environment, a
    process that reaches [app.listen] has all four values set and
    non-empty, and does not exit. *)
Theorem missing_variable_exits_before_listen (env : environment) (k : jsstring) :
  k ∈ required_variables -> env !! k = None ->
  last (main env) = Some (ProcessExit 1)
  /\ (1 <> 0)%Z
  /\ (forall p host, Listen p host ∉ main env)
  /\ (forall env' p host,
        Listen p host ∈ main env' ->
        (forall k', k' ∈ required_variables ->
           exists s, env' !! k' = Some s /\ s <> [])
        /\ forall code, ProcessExit code ∉ main env').
Proof.
  intros Hk Hnone.
  pose proof (missing_configuration_absent env k Hk Hnone) as Hm.
  split; [rewrite (main_missing env Hm); reflexivity|].
  split; [discriminate|].
  split.
  - intros p host Hin. apply listen_complete in Hin. congruence.
  - intros env' p host Hin.
    pose proof (listen_complete _ _ _ Hin) as Hc.
    split.
    + intros k' Hk'.
      destruct (env' !! k') as [s|] eqn:Hs.
      * exists s. split; [reflexivity|].
        apply complete_all_set in Hc.
        unfold required_variables in Hk'.
        rewrite !elem_of_cons, elem_of_nil in Hk'.
        unfold load in Hc;
          cbn [AIRTABLE_API_TOKEN AIRTABLE_BASE_ID AIRTABLE_TABLE_NAME
               MCP_SERVER_SECRET] in Hc.
        destruct Hc as (H1 & H2 & H3 & H4).
        destruct Hk' as [-> | [-> | [-> | [-> | [] ] ] ] ];
          [ exact (is_set_nonempty _ _ H1 Hs) | exact (is_set_nonempty _ _ H2 Hs)
          | exact (is_set_nonempty _ _ H3 Hs) | exact (is_set_nonempty _ _ H4 Hs) ].
      * rewrite (missing_configuration_absent env' k' Hk' Hs) in Hc.
        discriminate Hc.
    + intros code Hex. rewrite (main_complete env' Hc) in Hex.
      rewrite !elem_of_cons, elem_of_nil in Hex.
      destruct Hex as [Hx | [Hx | [] ] ]; discriminate Hx.
Qed.

Lemma missing_variable_exits_before_listen_witness :
  last (main env_without_secret) = Some (ProcessExit 1)
  /\ forall p host, Listen p host ∉ main env_without_secret.
Proof.
  destruct (missing_variable_exits_before_listen env_without_secret
              (lit "MCP_SERVER_SECRET")) as (Hlast & _ & Hlisten & _).
  - unfold required_variables. rewrite !elem_of_cons. tauto.
  - vm_compute. reflexivity.
  - split; [exact Hlast|exact Hlisten].
Defined.

Section DebugEndpoint.
Context `{Host}.
Variable axios : axios_request -> outcome json.

(** C8.  In a process that reached [app.listen], [GET /debug] is
    answered without any look at the Authorization header: whatever the
    header, the response is 200 with [hasSecret] true, [secretLength]
    the length of the secret, which is positive, and [secretPreview] the
    first five code units of the secret followed by "...". *)
Theorem debug_reports_secret
  (env : environment) (p : port) (host : jsstring)
  (now : jsstring) (auth : option jsstring) (body : value) :
  Listen p host ∈ main env ->
  exists secret,
    MCP_SERVER_SECRET (load env) = Some secret
    /\ 0 < js_length secret
    /\ handle axios (load env) now
         {| target := Debug; authorization := auth; parse := Parsed body |}
       = (Return {| status := 200;
                    sent := DebugBody true (js_length secret)
                              (take 5 secret ++ lit "...") |}, []).
Proof.
  intros Hin.
  pose proof (complete_all_set _ (listen_complete _ _ _ Hin))
    as (_ & _ & _ & Hset).
  destruct (MCP_SERVER_SECRET (load env)) as [[|c s]|] eqn:Hsecret;
    try discriminate Hset.
  exists (c :: s). split; [reflexivity|]. split.
  - unfold js_length. cbn [length]. lia.
  - unfold handle, debug. cbn [parse target]. rewrite Hsecret. reflexivity.
Qed.

End DebugEndpoint.

Lemma debug_reports_secret_witness :
  handle (H := sample_host) upstream_ok (load sample_env) sample_now
    {| target := Debug; authorization := None; parse := Parsed undefined |}
  = (Return {| status := 200;
               sent := DebugBody true 12 (lit "s3cre...") |}, []).
Proof.
  destruct (debug_reports_secret (H := sample_host) upstream_ok sample_env
              (PortNumber 3000) (lit "0.0.0.0") sample_now None undefined)
    as (secret & Hsecret & _ & Hresp).
  - vm_compute. apply list_elem_of_further, list_elem_of_here.
  - rewrite Hresp.
    assert (Hs : secret = lit "s3cret-value").
    { vm_compute in Hsecret. injection Hsecret as <-. reflexivity. }
    rewrite Hs. reflexivity.
Defined.

(** ** Percent-encoding *)

Section Encoding.
Context `{Host}.

Lemma in_range_spec lo hi c : in_range lo hi c = true <-> lo <= c <= hi.
Proof.
  unfold in_range. rewrite andb_true_iff, !N.leb_le. reflexivity.
Qed.

Lemma in_range_false lo hi c :
  in_range lo hi c = false <-> c < lo \/ hi < c.
Proof.
  unfold in_range. rewrite andb_false_iff, !N.leb_gt. reflexivity.
Qed.

Lemma uriUnreserved_ascii c :
  uriUnreserved c = true -> c < 128 /\ c <> 37.
Proof.
  unfold uriUnreserved.
  rewrite !orb_true_iff, !in_range_spec, bool_decide_eq_true.
  rewrite !elem_of_cons, elem_of_nil. lia.
Qed.

Lemma hex_digit_unreserved n : n < 16 -> uriUnreserved (hex_digit n) = true.
Proof.
  intros Hn. unfold hex_digit, uriUnreserved.
  rewrite !orb_true_iff, !in_range_spec.
  destruct (N.ltb_spec n 10); lia.
Qed.

Lemma hex_value_digit n : n < 16 -> hex_value (hex_digit n) = Some n.
Proof.
  intros Hn. unfold hex_digit, hex_value.
  destruct (N.ltb_spec n 10).
  - replace (in_range 48 57 (48 + n)) with true
      by (symmetry; apply in_range_spec; lia).
    f_equal. lia.
  - replace (in_range 48 57 (55 + n)) with false
      by (symmetry; apply in_range_false; lia).
    replace (in_range 65 70 (55 + n)) with true
      by (symmetry; apply in_range_spec; lia).
    f_equal. lia.
Qed.

Lemma utf8_octets cp : cp < 1114112 -> octets (utf8 cp).
Proof.
  intros Hcp. unfold utf8, octets.
  destruct (N.ltb_spec cp 128); [repeat constructor; lia|].
  destruct (N.ltb_spec cp 2048).
  { pose proof (N.Div0.div_lt_upper_bound cp 64 32).
    pose proof (N.mod_upper_bound cp 64).
    repeat constructor; lia. }
  destruct (N.ltb_spec cp 65536).
  { pose proof (N.Div0.div_lt_upper_bound cp 4096 16).
    pose proof (N.mod_upper_bound (cp / 64) 64).
    pose proof (N.mod_upper_bound cp 64).
    repeat constructor; lia. }
  pose proof (N.Div0.div_lt_upper_bound cp 262144 5).
  pose proof (N.mod_upper_bound (cp / 4096) 64).
  pose proof (N.mod_upper_bound (cp / 64) 64).
  pose proof (N.mod_upper_bound cp 64).
  repeat constructor; lia.
Qed.

Lemma percent_safe o : o < 256 -> forallb url_safe (percent o) = true.
Proof.
  intros Ho. unfold percent. cbn [forallb].
  pose proof (N.Div0.div_lt_upper_bound o 16 16).
  pose proof (N.mod_upper_bound o 16).
  unfold url_safe at 2 3.
  rewrite !hex_digit_unreserved by lia. reflexivity.
Qed.

Lemma percent_all_safe l : octets l -> forallb url_safe (percent_all l) = true.
Proof.
  unfold percent_all. induction 1 as [|o l Ho _ IH]; [reflexivity|].
  cbn [map concat]. rewrite forallb_app, IH, (percent_safe o Ho). reflexivity.
Qed.

Lemma percent_decode_percent o r :
  o < 256 ->
  percent_decode (percent o ++ r) = option_map (cons o) (percent_decode r).
Proof.
  intros Ho. unfold percent. cbn [app percent_decode N.eqb Pos.eqb].
  pose proof (N.Div0.div_lt_upper_bound o 16 16).
  pose proof (N.mod_upper_bound o 16).
  rewrite !hex_value_digit by lia.
  rewrite <- (N.div_mod o 16) by lia.
  destruct (percent_decode r); reflexivity.
Qed.

Lemma percent_decode_all l r :
  octets l ->
  percent_decode (percent_all l ++ r) = option_map (app l) (percent_decode r).
Proof.
  unfold percent_all. induction 1 as [|o l Ho _ IH].
  - cbn [map concat app]. destruct (percent_decode r); reflexivity.
  - cbn [map concat]. rewrite <- app_assoc, (percent_decode_percent _ _ Ho), IH.
    destruct (percent_decode r); reflexivity.
Qed.

Lemma percent_decode_plain c r :
  c <> 37 ->
  percent_decode (c :: r) = option_map (cons c) (percent_decode r).
Proof.
  intros Hc. cbn [percent_decode].
  destruct (N.eqb_spec c 37); [contradiction|reflexivity].
Qed.

Lemma encodeURIComponent_encoded s :
  code_units s ->
  forall segment, encodeURIComponent s = Return segment -> encoded s segment.
Proof.
  induction s as [s IH] using (induction_ltof1 _ (@length N)).
  unfold ltof in IH. intros Hwf segment.
  destruct s as [|c rest]; cbn [encodeURIComponent].
  { intros [= <-]. split; [reflexivity|]. exists []. split; reflexivity. }
  apply Forall_cons in Hwf as [Hc Hrest].
  destruct (uriUnreserved c) eqn:Hun.
  { destruct (encodeURIComponent rest) as [r|] eqn:Er; [|discriminate].
    cbn [obind]. intros [= <-].
    destruct (IH rest ltac:(cbn; lia) Hrest r Er) as (Hs & bytes & Hu & Hd).
    pose proof (uriUnreserved_ascii c Hun) as [Hlt Hne].
    split.
    - cbn [forallb]. unfold url_safe at 1. rewrite Hun, Hs. reflexivity.
    - exists (c :: bytes). split.
      + cbn [utf8_string].
        replace (is_lead c) with false
          by (symmetry; apply in_range_false; lia).
        replace (is_trail c) with false
          by (symmetry; apply in_range_false; lia).
        rewrite Hu. unfold utf8.
        destruct (N.ltb_spec c 128); [reflexivity|lia].
      + rewrite (percent_decode_plain _ _ Hne), Hd. reflexivity. }
  destruct (is_lead c) eqn:Hlead.
  { destruct rest as [|d rest']; [discriminate|].
    destruct (is_trail d) eqn:Htrail; [|discriminate].
    apply Forall_cons in Hrest as [Hd Hrest'].
    destruct (encodeURIComponent rest') as [r|] eqn:Er; [|discriminate].
    cbn [obind]. intros [= <-].
    destruct (IH rest' ltac:(cbn; lia) Hrest' r Er)
      as (Hs & bytes & Hu & Hdec).
    assert (Hoct : octets (utf8 (pair_code_point c d))).
    { apply utf8_octets. unfold pair_code_point.
      apply in_range_spec in Hlead. apply in_range_spec in Htrail. lia. }
    split.
    - rewrite forallb_app, Hs, (percent_all_safe _ Hoct). reflexivity.
    - exists (utf8 (pair_code_point c d) ++ bytes). split.
      + cbn [utf8_string]. rewrite Hlead, Htrail, Hu. reflexivity.
      + rewrite (percent_decode_all _ _ Hoct), Hdec. reflexivity. }
  destruct (is_trail c) eqn:Htrail; [discriminate|].
  destruct (encodeURIComponent rest) as [r|] eqn:Er; [|discriminate].
  cbn [obind]. intros [= <-].
  destruct (IH rest ltac:(cbn; lia) Hrest r Er) as (Hs & bytes & Hu & Hdec).
  assert (Hoct : octets (utf8 c)) by (apply utf8_octets; lia).
  split.
  - rewrite forallb_app, Hs, (percent_all_safe _ Hoct). reflexivity.
  - exists (utf8 c ++ bytes). split.
    + cbn [utf8_string]. rewrite Hlead, Htrail, Hu. reflexivity.
    + rewrite (percent_decode_all _ _ Hoct), Hdec. reflexivity.
Qed.

(** Encoding throws on an unpaired surrogate only: a string that has
    UTF-8 octets is encoded. *)
Lemma encodeURIComponent_returns s :
  is_Some (utf8_string s) -> exists segment, encodeURIComponent s = Return segment.
Proof.
  induction s as [s IH] using (induction_ltof1 _ (@length N)).
  unfold ltof in IH.
  destruct s as [|c rest]; cbn [encodeURIComponent utf8_string].
  { intros _. eexists. reflexivity. }
  destruct (uriUnreserved c) eqn:Hun.
  { pose proof (uriUnreserved_ascii c Hun) as [Hlt _].
    replace (is_lead c) with false by (symmetry; apply in_range_false; lia).
    replace (is_trail c) with false by (symmetry; apply in_range_false; lia).
    intros [bytes Hb].
    destruct (utf8_string rest) as [b|] eqn:Hrest; [|discriminate Hb].
    destruct (IH rest ltac:(cbn; lia) ltac:(eexists; exact Hrest)) as [r ->].
    eexists. reflexivity. }
  destruct (is_lead c).
  { destruct rest as [|d rest']; [intros [? [=]]|].
    destruct (is_trail d); [|intros [? [=]]].
    intros [bytes Hb].
    destruct (utf8_string rest') as [b|] eqn:Hrest; [|discriminate Hb].
    destruct (IH rest' ltac:(cbn; lia) ltac:(eexists; exact Hrest)) as [r ->].
    eexists. reflexivity. }
  destruct (is_trail c); [intros [? [=]]|].
  intros [bytes Hb].
  destruct (utf8_string rest) as [b|] eqn:Hrest; [|discriminate Hb].
  destruct (IH rest ltac:(cbn; lia) ltac:(eexists; exact Hrest)) as [r ->].
  eexists. reflexivity.
Qed.

End Encoding.

(** ** The calls the helpers make *)

Section Calls.
Context `{Host}.
Variable axios : axios_request -> outcome json.
Variable g : globals.

Lemma get_prop_read args k v : get_prop args k = Return v -> v = read args k.
Proof. intros E. unfold read. rewrite E. reflexivity. Qed.

(** Once one property was read, every property can be. *)
Lemma get_prop_any args k v k' :
  get_prop args k = Return v -> get_prop args k' = Return (read args k').
Proof.
  unfold read. destruct args as [[]|]; cbn; intros E;
    solve [discriminate E | reflexivity].
Qed.

Lemma calls_await {A} (req : axios_request) (k : json -> A) :
  calls (await_axios axios req ≫= (fun d => mret (k d))) = [req].
Proof.
  unfold mbind, M_bind, bind, await_axios, calls.
  destruct (axios req); reflexivity.
Qed.

Ltac early :=
  rewrite lift_bind;
  match goal with
  | |- _ ∈ calls (match ?o with _ => _ end) -> _ =>
      let E := fresh "E" in
      destruct o eqn:E;
      [|intros Hnil; apply elem_of_nil in Hnil; destruct Hnil]
  end.

Lemma getRecords_call args req :
  req ∈ calls (getRecords axios g args) ->
  exists u,
    table_url g = Return u
    /\ req = {| method := GET; url := u; headers := [authorization_header g];
                params := Some (list_query args); data := None |}.
Proof.
  unfold getRecords. do 4 early.
  rewrite calls_await. intros ->%list_elem_of_singleton.
  eexists. split; [reflexivity|].
  apply get_prop_read in E, E0, E1. subst. reflexivity.
Qed.

Lemma createRecord_call args req :
  req ∈ calls (createRecord axios g args) ->
  method req = POST /\ table_url g = Return (url req).
Proof.
  unfold createRecord. do 2 early.
  rewrite calls_await. intros ->%list_elem_of_singleton.
  split; reflexivity.
Qed.

Lemma updateRecord_call args req :
  req ∈ calls (updateRecord axios g args) ->
  method req = PATCH /\ record_url g args = Return (url req).
Proof.
  unfold updateRecord. do 2 early.
  rewrite calls_await. intros ->%list_elem_of_singleton.
  split; reflexivity.
Qed.

Lemma deleteRecord_call args req :
  req ∈ calls (deleteRecord axios g args) ->
  method req = DELETE /\ record_url g args = Return (url req).
Proof.
  unfold deleteRecord. early.
  rewrite calls_await. intros ->%list_elem_of_singleton.
  split; reflexivity.
Qed.

Lemma calls_try_catch_result (m : M invocation_result) :
  calls (try_catch m (fun error => mret (failure error))) = calls m.
Proof.
  destruct m as [[r|e] log]; cbn; [reflexivity|].
  apply app_nil_r.
Qed.

Lemma calls_list args :
  calls (executeAirtableTool axios g (lit "airtable_get_records") args)
  = calls (getRecords axios g args).
Proof.
  rewrite executeAirtableTool_selected, calls_try_catch_result. reflexivity.
Qed.

Lemma table_url_inv u :
  table_url g = Return u ->
  exists segment,
    encodeURIComponent (show (AIRTABLE_TABLE_NAME g)) = Return segment
    /\ u = lit "https://api.airtable.com/v0/" ++ show (AIRTABLE_BASE_ID g)
           ++ lit "/" ++ segment.
Proof.
  unfold table_url, mbind, outcome_bind.
  destruct (encodeURIComponent _) as [segment|]; [|discriminate].
  intros [= <-]. exists segment. split; reflexivity.
Qed.

Lemma record_url_inv args u :
  record_url g args = Return u ->
  exists base id,
    table_url g = Return base
    /\ ToString (read args (lit "recordId")) = Return id
    /\ u = base ++ lit "/" ++ id.
Proof.
  unfold record_url, mbind, outcome_bind.
  destruct (table_url g) as [base|]; [|discriminate]. cbn [obind].
  destruct (get_prop args (lit "recordId")) as [recordId|] eqn:E;
    [|discriminate].
  apply get_prop_read in E. subst recordId. cbn [obind].
  destruct (ToString _) as [id|]; [|discriminate].
  intros [= <-]. exists base, id. repeat split; reflexivity.
Qed.

(** The call of a dispatch goes to the table's address, or to a record
    below it. *)
Lemma executeAirtableTool_call toolName args req :
  req ∈ calls (executeAirtableTool axios g toolName args) ->
  ((toolName = lit "airtable_get_records"
    \/ toolName = lit "airtable_create_record")
   /\ table_url g = Return (url req))
  \/ ((toolName = lit "airtable_update_record"
       \/ toolName = lit "airtable_delete_record")
      /\ record_url g args = Return (url req)).
Proof.
  rewrite executeAirtableTool_selected, calls_try_catch_result.
  unfold selected.
  destruct (decide _) as [->|_].
  { intros (u & Hu & ->)%getRecords_call. left. split; [tauto|exact Hu]. }
  destruct (decide _) as [->|_].
  { intros [_ Hu]%createRecord_call. left. split; [tauto|exact Hu]. }
  destruct (decide _) as [->|_].
  { intros [_ Hu]%updateRecord_call. right. split; [tauto|exact Hu]. }
  destruct (decide _) as [->|_].
  { intros [_ Hu]%deleteRecord_call. right. split; [tauto|exact Hu]. }
  intros Hnil. apply elem_of_nil in Hnil. destruct Hnil.
Qed.

End Calls.

(** ** The list operation's query *)

Section ListQuery.
Context `{Host}.

Lemma list_query_maxRecords args :
  list_query args !! lit "maxRecords"
  = Some (js_or (read args (lit "maxRecords")) (Some (JNum 10))).
Proof.
  unfold list_query.
  destruct (ToBoolean (read args (lit "filterByFormula"))),
    (ToBoolean (read args (lit "view")));
    rewrite ?lookup_insert_ne by discriminate;
    apply lookup_singleton_eq.
Qed.

Lemma list_query_filterByFormula args :
  list_query args !! lit "filterByFormula"
  = if ToBoolean (read args (lit "filterByFormula"))
    then Some (read args (lit "filterByFormula")) else None.
Proof.
  unfold list_query.
  destruct (ToBoolean (read args (lit "filterByFormula"))),
    (ToBoolean (read args (lit "view")));
    rewrite ?(lookup_insert_ne _ (lit "view")) by discriminate;
    rewrite ?lookup_insert_eq; try reflexivity;
    apply lookup_singleton_ne; discriminate.
Qed.

Lemma list_query_view args :
  list_query args !! lit "view"
  = if ToBoolean (read args (lit "view"))
    then Some (read args (lit "view")) else None.
Proof.
  unfold list_query.
  destruct (ToBoolean (read args (lit "filterByFormula"))),
    (ToBoolean (read args (lit "view")));
    rewrite ?lookup_insert_eq; try reflexivity;
    rewrite ?lookup_insert_ne by discriminate;
    apply lookup_singleton_ne; discriminate.
Qed.

Lemma list_query_other args k :
  k <> lit "maxRecords" -> k <> lit "filterByFormula" -> k <> lit "view" ->
  list_query args !! k = None.
Proof.
  intros H1 H2 H3. unfold list_query.
  destruct (ToBoolean (read args (lit "filterByFormula"))),
    (ToBoolean (read args (lit "view")));
    rewrite ?lookup_insert_ne by congruence;
    apply lookup_singleton_ne; congruence.
Qed.

Lemma read_not_supplied args k : ~ supplies args k -> read args k = undefined.
Proof.
  intros Hn. unfold read.
  destruct args as [[| | | | |props]|]; cbn; try reflexivity.
  destruct (props !! k) as [v|] eqn:E; [|reflexivity].
  exfalso. apply Hn. exists props, v. split; [reflexivity|exact E].
Qed.

Lemma js_or_truthy a b : ToBoolean b = true -> ToBoolean (js_or a b) = true.
Proof.
  intros Hb. unfold js_or. destruct (ToBoolean a) eqn:Ha; assumption.
Qed.

End ListQuery.

(** ** The Upstream Client *)

Section UpstreamClient.
Context `{Host}.
Variable axios : axios_request -> outcome json.
Variable g : globals.

(** C5.  Every upstream call goes to
    "https://api.airtable.com/v0/" + base id + "/" + segment, where
    segment is [encodeURIComponent] of the table name: it consists of
    unreserved characters and "%XX" escapes only, and one pass of
    percent-decoding gives back exactly the UTF-8 octets of the table
    name, so the name is escaped once and not twice.  For update and
    delete the address continues with "/" and the record id converted to
    a string; an id that is a string is appended as it is, whatever
    characters it holds. *)
Theorem upstream_url_composition
  (toolName : jsstring) (args : value) (req : axios_request) :
  code_units (show (AIRTABLE_TABLE_NAME g)) ->
  req ∈ calls (executeAirtableTool axios g toolName args) ->
  exists segment bytes,
    encodeURIComponent (show (AIRTABLE_TABLE_NAME g)) = Return segment
    /\ forallb url_safe segment = true
    /\ utf8_string (show (AIRTABLE_TABLE_NAME g)) = Some bytes
    /\ percent_decode segment = Some bytes
    /\ (((toolName = lit "airtable_get_records"
          \/ toolName = lit "airtable_create_record")
         /\ url req = lit "https://api.airtable.com/v0/"
                      ++ show (AIRTABLE_BASE_ID g) ++ lit "/" ++ segment)
        \/ ((toolName = lit "airtable_update_record"
             \/ toolName = lit "airtable_delete_record")
            /\ exists id,
                 ToString (read args (lit "recordId")) = Return id
                 /\ url req = (lit "https://api.airtable.com/v0/"
                               ++ show (AIRTABLE_BASE_ID g) ++ lit "/"
                               ++ segment) ++ lit "/" ++ id
                 /\ forall rid,
                      read args (lit "recordId") = Some (JStr rid) ->
                      id = rid)).
Proof.
  intros Hwf Hin.
  assert (Hseg : forall base, table_url g = Return base ->
            exists segment bytes,
              encodeURIComponent (show (AIRTABLE_TABLE_NAME g)) = Return segment
              /\ forallb url_safe segment = true
              /\ utf8_string (show (AIRTABLE_TABLE_NAME g)) = Some bytes
              /\ percent_decode segment = Some bytes
              /\ base = lit "https://api.airtable.com/v0/"
                        ++ show (AIRTABLE_BASE_ID g) ++ lit "/" ++ segment).
  { intros base (segment & Henc & ->)%table_url_inv.
    destruct (encodeURIComponent_encoded _ Hwf segment Henc)
      as (Hsafe & bytes & Hutf & Hdec).
    exists segment, bytes. repeat split; assumption. }
  destruct (executeAirtableTool_call axios g toolName args req Hin)
    as [[Hname Hurl]|[Hname Hurl]].
  - destruct (Hseg _ Hurl) as (segment & bytes & Henc & Hs & Hu & Hd & Hbase).
    exists segment, bytes. repeat (split; [assumption|]).
    left. split; assumption.
  - apply record_url_inv in Hurl as (base & id & Hbase & Hid & Hurl).
    destruct (Hseg _ Hbase) as (segment & bytes & Henc & Hs & Hu & Hd & ->).
    exists segment, bytes. repeat (split; [assumption|]).
    right. split; [assumption|]. exists id.
    split; [assumption|]. split; [assumption|].
    intros rid Hrid. rewrite Hrid in Hid. cbn in Hid. congruence.
Qed.

(** C6, amended.  The read call of a list invocation carries
    [maxRecords], equal to the caller's value when that is truthy and to
    10 otherwise, in particular when the caller omits it.
    [filterByFormula] (the key is spelled so) and [view] are attached,
    with the caller's value, exactly when the caller supplies a truthy
    value for them; no other parameter is attached, so a key named
    [filterFormula] is not forwarded. *)
Theorem list_query_parameters (args : value) (req : axios_request) :
  req ∈ calls (executeAirtableTool axios g (lit "airtable_get_records") args) ->
  method req = GET
  /\ exists query,
       params req = Some query
       /\ query !! lit "maxRecords"
          = Some (js_or (read args (lit "maxRecords")) (Some (JNum 10)))
       /\ (~ supplies args (lit "maxRecords") ->
           query !! lit "maxRecords" = Some (Some (JNum 10)))
       /\ (forall k, k = lit "filterByFormula" \/ k = lit "view" ->
             query !! k
             = if ToBoolean (read args k) then Some (read args k) else None)
       /\ (forall k, k <> lit "maxRecords" -> k <> lit "filterByFormula" ->
             k <> lit "view" -> query !! k = None).
Proof.
  rewrite calls_list. intros (u & _ & ->)%getRecords_call.
  split; [reflexivity|]. exists (list_query args).
  split; [reflexivity|]. split; [apply list_query_maxRecords|].
  split.
  { intros Hn. rewrite list_query_maxRecords, (read_not_supplied _ _ Hn).
    reflexivity. }
  split.
  - intros k [-> | ->];
      [apply list_query_filterByFormula|apply list_query_view].
  - intros k. apply list_query_other.
Qed.

(** C9, amended.  The [maxRecords] the read call carries is always
    truthy, hence never the number 0: a caller's value that is falsy (0,
    the empty string, [null], [false], as well as an absent key) is
    replaced by 10, and a truthy one is forwarded as it is.  The default
    depends on the truth value of what the caller sent, not on whether the
    key is present.  Since every truthy value is forwarded, so is one that
    reads as zero, such as the string "0". *)
Theorem list_maxRecords_default_by_truthiness
  (args : value) (req : axios_request) :
  req ∈ calls (executeAirtableTool axios g (lit "airtable_get_records") args) ->
  exists query m,
    params req = Some query
    /\ query !! lit "maxRecords" = Some m
    /\ ToBoolean m = true
    /\ m <> Some (JNum 0)
    /\ (ToBoolean (read args (lit "maxRecords")) = false ->
        m = Some (JNum 10))
    /\ (ToBoolean (read args (lit "maxRecords")) = true ->
        m = read args (lit "maxRecords"))
    /\ (forall v,
          v ∈ [Some (JNum 0); Some (JStr []); Some JNull; Some (JBool false);
               undefined] ->
          read args (lit "maxRecords") = v -> m = Some (JNum 10)).
Proof.
  rewrite calls_list. intros (u & _ & ->)%getRecords_call.
  exists (list_query args),
    (js_or (read args (lit "maxRecords")) (Some (JNum 10))).
  split; [reflexivity|]. split; [apply list_query_maxRecords|].
  assert (Ht : ToBoolean (js_or (read args (lit "maxRecords"))
                            (Some (JNum 10))) = true)
    by (apply js_or_truthy; reflexivity).
  split; [exact Ht|]. split.
  { intros E. rewrite E in Ht. discriminate Ht. }
  revert Ht. unfold js_or.
  destruct (ToBoolean (read args (lit "maxRecords"))) eqn:Hb; intros Ht.
  - split; [discriminate|]. split; [reflexivity|].
    intros v Hv Hread. rewrite Hread in Hb.
    rewrite !elem_of_cons, elem_of_nil in Hv.
    destruct Hv as [-> | [-> | [-> | [-> | [-> | [] ] ] ] ] ];
      discriminate Hb.
  - split; [reflexivity|]. split; [discriminate|]. reflexivity.
Qed.

End UpstreamClient.

(** A list invocation with an argument object, in a process whose table
    name encodes, makes one call, with the query [list_query] builds. *)
Lemma list_call_of_object {H : Host} (axios : axios_request -> outcome json)
  (g : globals) (props : gmap jsstring json) (u : jsstring) :
  table_url g = Return u ->
  exists req,
    calls (executeAirtableTool axios g (lit "airtable_get_records")
             (Some (JObj props))) = [req]
    /\ params req = Some (list_query (Some (JObj props))).
Proof.
  intros Hu. rewrite calls_list. unfold getRecords.
  do 3 (rewrite lift_bind; cbn [get_prop]).
  rewrite lift_bind, Hu, calls_await.
  eexists. split; reflexivity.
Qed.

Lemma sample_list_call (args : value) :
  (exists props, args = Some (JObj props)) ->
  exists req,
    calls (executeAirtableTool (H := sample_host) upstream_ok sample_globals
             (lit "airtable_get_records") args) = [req]
    /\ params req = Some (list_query (H := sample_host) args).
Proof.
  intros [props ->].
  apply (list_call_of_object (H := sample_host) upstream_ok sample_globals
           props (lit "https://api.airtable.com/v0/app123/My%20Table")).
  vm_compute. reflexivity.
Qed.

(** C6 as worded fails twice: a [view] supplied as the empty string is not
    attached, and a filter supplied under the name [filterFormula] is not
    attached either. *)
Lemma supplied_parameters_not_attached :
  ~ list_parameters_as_supplied (H := sample_host) upstream_ok sample_globals
      empty_view
  /\ ~ list_parameters_as_supplied (H := sample_host) upstream_ok
         sample_globals formula_under_spec_name.
Proof.
  split; intros Hc.
  - destruct (sample_list_call empty_view) as (req & Hcalls & Hparams);
      [eexists; reflexivity|].
    destruct (Hc req) as (query & Hq & _ & _ & Hiff);
      [rewrite Hcalls; apply list_elem_of_here|].
    rewrite Hparams in Hq. injection Hq as <-.
    destruct (proj1 (Hiff (lit "view") (or_intror eq_refl))) as [v Hv].
    { eexists _, _. split; [reflexivity|]. apply lookup_singleton_eq. }
    rewrite list_query_view in Hv. vm_compute in Hv. discriminate Hv.
  - destruct (sample_list_call formula_under_spec_name)
      as (req & Hcalls & Hparams); [eexists; reflexivity|].
    destruct (Hc req) as (query & Hq & _ & _ & Hiff);
      [rewrite Hcalls; apply list_elem_of_here|].
    rewrite Hparams in Hq. injection Hq as <-.
    destruct (proj1 (Hiff (lit "filterFormula") (or_introl eq_refl)))
      as [v Hv].
    { eexists _, _. split; [reflexivity|]. apply lookup_singleton_eq. }
    rewrite list_query_other in Hv by discriminate. discriminate Hv.
Qed.

Lemma list_query_parameters_witness :
  exists req query,
    calls (executeAirtableTool (H := sample_host) upstream_ok sample_globals
             (lit "airtable_get_records") empty_view) = [req]
    /\ method req = GET
    /\ params req = Some query
    /\ query !! lit "maxRecords" = Some (Some (JNum 10))
    /\ query !! lit "view" = None
    /\ query !! lit "filterByFormula" = None.
Proof.
  destruct (sample_list_call empty_view) as (req & Hcalls & Hparams);
    [eexists; reflexivity|].
  destruct (list_query_parameters (H := sample_host) upstream_ok
              sample_globals empty_view req)
    as (Hm & query & Hq & _ & Hmax & Hopt & _).
  - rewrite Hcalls. apply list_elem_of_here.
  - exists req, query. repeat (split; [assumption|]). split.
    + apply Hmax. intros (props & v & [= <-] & Hv).
      rewrite lookup_singleton_ne in Hv by discriminate. discriminate Hv.
    + split.
      * rewrite (Hopt (lit "view") (or_intror eq_refl)). reflexivity.
      * rewrite (Hopt (lit "filterByFormula") (or_introl eq_refl)).
        reflexivity.
Defined.

(** C9 as worded fails: the string "0" is truthy, so it is forwarded, and
    the read call asks for [maxRecords=0]. *)
Lemma zero_as_text_is_forwarded :
  ~ no_caller_requests_zero (H := sample_host) upstream_ok sample_globals
      zero_as_text.
Proof.
  intros Hc.
  destruct (sample_list_call zero_as_text) as (req & Hcalls & Hparams);
    [eexists; reflexivity|].
  destruct (Hc req) as (query & m & Hq & Hm & _ & Hzero);
    [rewrite Hcalls; apply list_elem_of_here|].
  rewrite Hparams in Hq. injection Hq as <-.
  assert (Hm' : Some m = Some (Some (JStr (lit "0")))).
  { etransitivity; [symmetry; exact Hm|].
    etransitivity; [apply list_query_maxRecords|]. reflexivity. }
  injection Hm' as ->. discriminate Hzero.
Qed.

Lemma list_maxRecords_default_by_truthiness_witness :
  exists req query,
    calls (executeAirtableTool (H := sample_host) upstream_ok sample_globals
             (lit "airtable_get_records") zero_records) = [req]
    /\ params req = Some query
    /\ query !! lit "maxRecords" = Some (Some (JNum 10)).
Proof.
  destruct (sample_list_call zero_records) as (req & Hcalls & Hparams);
    [eexists; reflexivity|].
  destruct (list_maxRecords_default_by_truthiness (H := sample_host)
              upstream_ok sample_globals zero_records req)
    as (query & m & Hq & Hm & _ & _ & Hfalsy & _).
  - rewrite Hcalls. apply list_elem_of_here.
  - exists req, query. split; [assumption|]. split; [assumption|].
    transitivity (Some m); [exact Hm|].
    f_equal. apply Hfalsy. vm_compute. reflexivity.
Defined.

Lemma upstream_url_composition_witness :
  calls (executeAirtableTool (H := sample_host) upstream_ok sample_globals
           (lit "airtable_update_record") odd_record_id) = [patch_odd_record]
  /\ encodeURIComponent (H := sample_host) (lit "My Table")
     = Return (lit "My%20Table")
  /\ percent_decode (lit "My%20Table") = Some (lit "My Table")
  /\ exists segment bytes,
       encodeURIComponent (H := sample_host)
         (show (AIRTABLE_TABLE_NAME sample_globals)) = Return segment
       /\ percent_decode segment = Some bytes
       /\ utf8_string (show (AIRTABLE_TABLE_NAME sample_globals)) = Some bytes
       /\ url patch_odd_record
          = (lit "https://api.airtable.com/v0/"
             ++ show (AIRTABLE_BASE_ID sample_globals) ++ lit "/" ++ segment)
            ++ lit "/" ++ lit "rec/1?x".
Proof.
  assert (Hcalls :
            calls (executeAirtableTool (H := sample_host) upstream_ok
                     sample_globals (lit "airtable_update_record")
                     odd_record_id) = [patch_odd_record])
    by (vm_compute; reflexivity).
  split; [exact Hcalls|]. split; [vm_compute; reflexivity|].
  split; [vm_compute; reflexivity|].
  destruct (upstream_url_composition (H := sample_host) upstream_ok
              sample_globals (lit "airtable_update_record") odd_record_id
              patch_odd_record)
    as (segment & bytes & Henc & _ & Hutf & Hdec & Hcase).
  - vm_compute. repeat constructor.
  - rewrite Hcalls. apply list_elem_of_here.
  - exists segment, bytes. repeat (split; [assumption|]).
    destruct Hcase as [ [ [Hn | Hn] _] | [_ (id & Hid & Hurl & Hraw)] ];
      try discriminate Hn.
    rewrite Hurl. f_equal. f_equal. apply Hraw. vm_compute. reflexivity.
Defined.


(** * Further properties *)

(** ** The requests of the helpers, in full *)

Section Requests.
Context `{Host}.
Variable axios : axios_request -> outcome json.
Variable g : globals.

Lemma get_prop_readable args k :
  nullish args = false -> get_prop args k = Return (read args k).
Proof.
  unfold read. destruct args as [[]|]; cbn; intros E;
    solve [discriminate E | reflexivity].
Qed.

Lemma get_prop_nullish args k :
  nullish args = true ->
  get_prop args k = Throw (TypeError (cannot_read_message args k)).
Proof.
  destruct args as [[]|]; cbn; intros E; solve [discriminate E | reflexivity].
Qed.

Lemma get_prop_returns_readable args k v :
  get_prop args k = Return v -> nullish args = false.
Proof.
  destruct args as [[]|]; cbn; intros E; solve [discriminate E | reflexivity].
Qed.

Lemma table_url_returns :
  is_Some (utf8_string (show (AIRTABLE_TABLE_NAME g))) ->
  exists segment,
    encodeURIComponent (show (AIRTABLE_TABLE_NAME g)) = Return segment
    /\ table_url g = Return (table_address g segment).
Proof.
  intros [segment Hs]%encodeURIComponent_returns.
  exists segment. split; [exact Hs|].
  unfold table_url, mbind, outcome_bind. rewrite Hs. reflexivity.
Qed.

Lemma await_settle (req : axios_request) (prefix : jsstring) :
  await_axios axios req ≫=
    (fun d => mret (success (prefix ++ JSON_stringify d)))
  = (settle axios prefix req, [req]).
Proof.
  unfold mbind, M_bind, bind, await_axios, settle.
  destruct (axios req); reflexivity.
Qed.

Lemma getRecords_sends args u :
  nullish args = false -> table_url g = Return u ->
  getRecords axios g args
  = (settle axios [] (list_request g u args), [list_request g u args]).
Proof.
  intros Hargs Hu. unfold getRecords.
  do 3 (rewrite lift_bind, (get_prop_readable _ _ Hargs)).
  rewrite lift_bind, Hu. apply (await_settle _ []).
Qed.

Lemma createRecord_sends args u :
  nullish args = false -> table_url g = Return u ->
  createRecord axios g args
  = (settle axios (lit "Record created: ") (write_request g POST u args),
     [write_request g POST u args]).
Proof.
  intros Hargs Hu. unfold createRecord.
  rewrite lift_bind, Hu, lift_bind, (get_prop_readable _ _ Hargs).
  apply await_settle.
Qed.

Lemma record_url_readable args u :
  record_url g args = Return u -> nullish args = false.
Proof.
  unfold record_url, mbind, outcome_bind.
  destruct (table_url g); [|discriminate]. cbn [obind].
  destruct (get_prop args (lit "recordId")) eqn:E; [|discriminate].
  intros _. exact (get_prop_returns_readable _ _ _ E).
Qed.

Lemma updateRecord_sends args u :
  record_url g args = Return u ->
  updateRecord axios g args
  = (settle axios (lit "Record updated: ") (write_request g PATCH u args),
     [write_request g PATCH u args]).
Proof.
  intros Hu. unfold updateRecord.
  rewrite lift_bind, Hu, lift_bind,
    (get_prop_readable _ _ (record_url_readable _ _ Hu)).
  apply await_settle.
Qed.

Lemma deleteRecord_sends args u :
  record_url g args = Return u ->
  deleteRecord axios g args
  = (settle axios (lit "Record deleted: ") (delete_request g u),
     [delete_request g u]).
Proof.
  intros Hu. unfold deleteRecord. rewrite lift_bind, Hu.
  apply await_settle.
Qed.

(** When the address cannot be computed, nothing is sent. *)
Lemma createRecord_early args e :
  table_url g = Throw e -> createRecord axios g args = (Throw e, []).
Proof. intros Hu. unfold createRecord. rewrite lift_bind, Hu. reflexivity. Qed.

Lemma updateRecord_early args e :
  record_url g args = Throw e -> updateRecord axios g args = (Throw e, []).
Proof. intros Hu. unfold updateRecord. rewrite lift_bind, Hu. reflexivity. Qed.

Lemma deleteRecord_early args e :
  record_url g args = Throw e -> deleteRecord axios g args = (Throw e, []).
Proof. intros Hu. unfold deleteRecord. rewrite lift_bind, Hu. reflexivity. Qed.

Lemma dispatch_of_selected toolName args o log :
  selected axios g toolName args = (o, log) ->
  executeAirtableTool axios g toolName args
  = (match o with
     | Return r => Return r
     | Throw e => Return (failure e)
     end, log).
Proof.
  intros E. rewrite executeAirtableTool_selected, E.
  destruct o; cbn; [reflexivity|]. rewrite app_nil_r. reflexivity.
Qed.

(** The request of a dispatch, by tool. *)
Lemma dispatch_request toolName args req :
  req ∈ calls (executeAirtableTool axios g toolName args) ->
  (toolName = lit "airtable_get_records"
   /\ exists u, table_url g = Return u /\ req = list_request g u args)
  \/ (toolName = lit "airtable_create_record"
      /\ exists u, table_url g = Return u /\ req = write_request g POST u args)
  \/ (toolName = lit "airtable_update_record"
      /\ exists u, record_url g args = Return u
                   /\ req = write_request g PATCH u args)
  \/ (toolName = lit "airtable_delete_record"
      /\ exists u, record_url g args = Return u /\ req = delete_request g u).
Proof.
  rewrite executeAirtableTool_selected, calls_try_catch_result.
  unfold selected.
  destruct (decide _) as [->|_].
  { intros (u & Hu & ->)%getRecords_call. left. split; [reflexivity|].
    exists u. split; [exact Hu|reflexivity]. }
  destruct (decide _) as [->|_].
  { intros Hin. right; left. split; [reflexivity|].
    destruct (table_url g) as [u|e] eqn:Hu.
    - destruct (nullish args) eqn:Hn.
      + unfold createRecord in Hin.
        rewrite lift_bind, Hu, lift_bind, (get_prop_nullish _ _ Hn) in Hin.
        apply elem_of_nil in Hin. destruct Hin.
      + rewrite (createRecord_sends _ _ Hn Hu) in Hin.
        apply list_elem_of_singleton in Hin. exists u. split; [reflexivity|exact Hin].
    - rewrite (createRecord_early _ _ Hu) in Hin.
      apply elem_of_nil in Hin. destruct Hin. }
  destruct (decide _) as [->|_].
  { intros Hin. right; right; left. split; [reflexivity|].
    destruct (record_url g args) as [u|e] eqn:Hu.
    - rewrite (updateRecord_sends _ _ Hu) in Hin.
      apply list_elem_of_singleton in Hin. exists u. split; [reflexivity|exact Hin].
    - rewrite (updateRecord_early _ _ Hu) in Hin.
      apply elem_of_nil in Hin. destruct Hin. }
  destruct (decide _) as [->|_].
  { intros Hin. right; right; right. split; [reflexivity|].
    destruct (record_url g args) as [u|e] eqn:Hu.
    - rewrite (deleteRecord_sends _ _ Hu) in Hin.
      apply list_elem_of_singleton in Hin. exists u. split; [reflexivity|exact Hin].
    - rewrite (deleteRecord_early _ _ Hu) in Hin.
      apply elem_of_nil in Hin. destruct Hin. }
  intros Hnil. apply elem_of_nil in Hnil. destruct Hnil.
Qed.

End Requests.

(** ** Further properties of the dispatcher and the upstream client *)

Section MoreDispatcher.
Context `{Host}.
Variable axios : axios_request -> outcome json.
Variable g : globals.

Lemma verb_of_registered toolName :
  toolName ∈ tool_names ->
  (toolName = lit "airtable_get_records" /\ verb_of toolName = GET)
  \/ (toolName = lit "airtable_create_record" /\ verb_of toolName = POST)
  \/ (toolName = lit "airtable_update_record" /\ verb_of toolName = PATCH)
  \/ (toolName = lit "airtable_delete_record" /\ verb_of toolName = DELETE).
Proof.
  intros [-> | [-> | [-> | ->] ] ]%registered_cases;
    [left|right; left|right; right; left|right; right; right];
    split; reflexivity.
Qed.

Lemma record_url_returns args u id :
  nullish args = false -> table_url g = Return u ->
  ToString (read args (lit "recordId")) = Return id ->
  record_url g args = Return (u ++ lit "/" ++ id).
Proof.
  intros Hargs Hu Hid. unfold record_url, mbind, outcome_bind.
  rewrite Hu. cbn [obind]. rewrite (get_prop_readable _ _ Hargs).
  cbn [obind]. rewrite Hid. reflexivity.
Qed.

Lemma record_url_nullish args u :
  nullish args = true -> table_url g = Return u ->
  record_url g args
  = Throw (TypeError (cannot_read_message args (lit "recordId"))).
Proof.
  intros Hargs Hu. unfold record_url, mbind, outcome_bind.
  rewrite Hu. cbn [obind]. rewrite (get_prop_nullish _ _ Hargs). reflexivity.
Qed.

(** X1.  Every upstream call carries the service credential: its headers
    are [Authorization: Bearer <API token>], followed by
    [Content-Type: application/json] for the two calls that send a body
    (POST and PATCH) and by nothing else for GET and DELETE. *)
Theorem every_call_carries_the_token
  (toolName : jsstring) (args : value) (req : axios_request) :
  req ∈ calls (executeAirtableTool axios g toolName args) ->
  headers req
  = (lit "Authorization", lit "Bearer " ++ show (AIRTABLE_API_TOKEN g))
    :: match method req with
       | POST | PATCH => [ (lit "Content-Type", lit "application/json") ]
       | GET | DELETE => []
       end.
Proof.
  intros [ (_ & u & _ & ->) | [ (_ & u & _ & ->) | [ (_ & u & _ & ->)
         | (_ & u & _ & ->) ] ] ]%dispatch_request; reflexivity.
Qed.

(** X2.  The call of a dispatch uses the verb of its tool (GET for list,
    POST for create, PATCH for update, DELETE for delete).  Only the GET
    carries query parameters; POST and PATCH carry the body
    [{fields: args.fields}], with [fields] undefined when the caller sent
    none; GET and DELETE carry no body. *)
Theorem call_shape_by_tool
  (toolName : jsstring) (args : value) (req : axios_request) :
  req ∈ calls (executeAirtableTool axios g toolName args) ->
  toolName ∈ tool_names
  /\ method req = verb_of toolName
  /\ match method req with
     | GET => data req = None /\ exists query, params req = Some query
     | POST | PATCH =>
         params req = None
         /\ data req = Some {[ lit "fields" := read args (lit "fields") ]}
     | DELETE => params req = None /\ data req = None
     end.
Proof.
  intros [ (-> & u & _ & ->) | [ (-> & u & _ & ->) | [ (-> & u & _ & ->)
         | (-> & u & _ & ->) ] ] ]%dispatch_request;
    (split; [unfold tool_names, tools; cbn [map name]; set_solver|]);
    (split; [reflexivity|]); cbn [method list_request write_request
                                    delete_request];
    split; try reflexivity.
  eexists. reflexivity.
Qed.

(** X3.  A registered tool given arguments that can be read (anything but
    [undefined] and [null]), in a process whose table name has no unpaired
    surrogate, makes exactly one upstream call, with the verb of the tool.
    For update and delete the record id must convert to a string.
    Nothing else about the arguments is checked: no key is required. *)
Theorem registered_tool_calls_once (toolName : jsstring) (args : value) :
  toolName ∈ tool_names ->
  nullish args = false ->
  is_Some (utf8_string (show (AIRTABLE_TABLE_NAME g))) ->
  (toolName = lit "airtable_update_record"
   \/ toolName = lit "airtable_delete_record" ->
   exists id, ToString (read args (lit "recordId")) = Return id) ->
  exists req,
    calls (executeAirtableTool axios g toolName args) = [req]
    /\ method req = verb_of toolName.
Proof.
  intros Hreg Hargs [segment [_ Hu]]%table_url_returns Hid.
  rewrite executeAirtableTool_selected, calls_try_catch_result.
  unfold selected, verb_of.
  destruct (registered_cases _ Hreg) as [-> | [-> | [-> | ->] ] ].
  - destruct (decide _); [|congruence].
    rewrite (getRecords_sends _ _ _ _ Hargs Hu). eexists. split; reflexivity.
  - destruct (decide _) as [E|_]; [discriminate E|].
    destruct (decide _); [|congruence].
    rewrite (createRecord_sends _ _ _ _ Hargs Hu). eexists. split; reflexivity.
  - destruct (Hid (or_introl eq_refl)) as [id Hs].
    destruct (decide _) as [E|_]; [discriminate E|].
    destruct (decide _) as [E|_]; [discriminate E|].
    destruct (decide _); [|congruence].
    rewrite (updateRecord_sends _ _ _ _ (record_url_returns _ _ _ Hargs Hu Hs)).
    eexists. split; reflexivity.
  - destruct (Hid (or_intror eq_refl)) as [id Hs].
    destruct (decide _) as [E|_]; [discriminate E|].
    destruct (decide _) as [E|_]; [discriminate E|].
    destruct (decide _) as [E|_]; [discriminate E|].
    destruct (decide _); [|congruence].
    rewrite (deleteRecord_sends _ _ _ _ (record_url_returns _ _ _ Hargs Hu Hs)).
    eexists. split; reflexivity.
Qed.

(** X4.  With [undefined] or [null] as arguments no registered tool
    reaches the upstream: the first property read throws a TypeError,
    which the dispatcher returns as an error result.  The property is
    [maxRecords] for list, [fields] for create and [recordId] for update
    and delete (for the last three the address of the table is computed
    first, so the table name must encode). *)
Theorem nullish_arguments_fail_before_any_call
  (toolName : jsstring) (args : value) :
  toolName ∈ tool_names ->
  nullish args = true ->
  is_Some (utf8_string (show (AIRTABLE_TABLE_NAME g))) ->
  exists k,
    executeAirtableTool axios g toolName args
    = (Return {| content :=
                   [ {| type := lit "text";
                        text := lit "Error: " ++ cannot_read_message args k |} ];
                 isError := Some true |}, [])
    /\ ((toolName = lit "airtable_get_records" /\ k = lit "maxRecords")
        \/ (toolName = lit "airtable_create_record" /\ k = lit "fields")
        \/ ((toolName = lit "airtable_update_record"
             \/ toolName = lit "airtable_delete_record")
            /\ k = lit "recordId")).
Proof.
  intros Hreg Hargs [segment [_ Hu]]%table_url_returns.
  destruct (registered_cases _ Hreg) as [-> | [-> | [-> | ->] ] ].
  - exists (lit "maxRecords"). split; [|left; split; reflexivity].
    apply (dispatch_of_selected _ _ _ _
             (Throw (TypeError (cannot_read_message args (lit "maxRecords")))) []).
    unfold selected. destruct (decide _); [|congruence].
    unfold getRecords. rewrite lift_bind, (get_prop_nullish _ _ Hargs).
    reflexivity.
  - exists (lit "fields"). split; [|right; left; split; reflexivity].
    apply (dispatch_of_selected _ _ _ _
             (Throw (TypeError (cannot_read_message args (lit "fields")))) []).
    unfold selected.
    destruct (decide _) as [E|_]; [discriminate E|].
    destruct (decide _); [|congruence].
    unfold createRecord.
    rewrite lift_bind, Hu, lift_bind, (get_prop_nullish _ _ Hargs).
    reflexivity.
  - exists (lit "recordId"). split; [|right; right; split; [left|]; reflexivity].
    apply (dispatch_of_selected _ _ _ _
             (Throw (TypeError (cannot_read_message args (lit "recordId")))) []).
    unfold selected.
    destruct (decide _) as [E|_]; [discriminate E|].
    destruct (decide _) as [E|_]; [discriminate E|].
    destruct (decide _); [|congruence].
    apply updateRecord_early, (record_url_nullish _ _ Hargs Hu).
  - exists (lit "recordId"). split; [|right; right; split; [right|]; reflexivity].
    apply (dispatch_of_selected _ _ _ _
             (Throw (TypeError (cannot_read_message args (lit "recordId")))) []).
    unfold selected.
    destruct (decide _) as [E|_]; [discriminate E|].
    destruct (decide _) as [E|_]; [discriminate E|].
    destruct (decide _) as [E|_]; [discriminate E|].
    destruct (decide _); [|congruence].
    apply deleteRecord_early, (record_url_nullish _ _ Hargs Hu).
Qed.

Lemma selected_registered toolName args :
  (toolName = lit "airtable_get_records"
   /\ selected axios g toolName args = getRecords axios g args)
  \/ (toolName = lit "airtable_create_record"
      /\ selected axios g toolName args = createRecord axios g args)
  \/ (toolName = lit "airtable_update_record"
      /\ selected axios g toolName args = updateRecord axios g args)
  \/ (toolName = lit "airtable_delete_record"
      /\ selected axios g toolName args = deleteRecord axios g args)
  \/ ((toolName ∉ tool_names)
      /\ selected axios g toolName args
         = throw (Error (lit "Unknown tool: " ++ toolName))).
Proof.
  destruct (decide (toolName ∈ tool_names)) as [Hreg|Hout].
  - unfold selected.
    destruct (registered_cases _ Hreg) as [-> | [-> | [-> | ->] ] ].
    + left. split; [reflexivity|].
      destruct (decide _); [reflexivity|congruence].
    + right; left. split; [reflexivity|].
      destruct (decide _) as [E|_]; [discriminate E|].
      destruct (decide _); [reflexivity|congruence].
    + right; right; left. split; [reflexivity|].
      destruct (decide _) as [E|_]; [discriminate E|].
      destruct (decide _) as [E|_]; [discriminate E|].
      destruct (decide _); [reflexivity|congruence].
    + right; right; right; left. split; [reflexivity|].
      destruct (decide _) as [E|_]; [discriminate E|].
      destruct (decide _) as [E|_]; [discriminate E|].
      destruct (decide _) as [E|_]; [discriminate E|].
      destruct (decide _); [reflexivity|congruence].
  - right; right; right; right. split; [exact Hout|].
    exact (selected_unknown _ _ _ _ Hout).
Qed.

(** A helper that makes no call has thrown. *)
Lemma helper_run_outcome prefix (m : M invocation_result) :
  helper_run axios prefix m ->
  (exists error, m = (Throw error, []))
  \/ (exists req, m = (settle axios prefix req, [req])).
Proof.
  intros [error E|req E]; [left; exists error|right; exists req]; exact E.
Qed.

(** X5.  Whatever the tool name and the arguments, a dispatch makes at
    most one upstream call and returns a result with exactly one block, of
    type "text".  The result has no [isError] property exactly when one
    call was made and fulfilled, and its text is then the tool's prefix
    followed by the serialized data.  Otherwise [isError] is [true] and
    the text is "Error: " followed by the message of one error: the error
    by which the single call was rejected, or, when no call was made, the
    error that the helper of the tool threw (for a name outside the
    catalogue, the error "Unknown tool: " + name).  [isError] is never
    [false]. *)
Theorem dispatch_result_shape (toolName : jsstring) (args : value) :
  exists t e,
    fst (executeAirtableTool axios g toolName args)
    = Return {| content := [ {| type := lit "text"; text := t |} ];
                isError := e |}
    /\ ((e = None
         /\ exists req d,
              calls (executeAirtableTool axios g toolName args) = [req]
              /\ axios req = Return d
              /\ t = success_prefix toolName ++ JSON_stringify d)
        \/ (e = Some true
            /\ exists error,
                 t = lit "Error: " ++ message error
                 /\ ((calls (executeAirtableTool axios g toolName args) = []
                      /\ (((toolName ∉ tool_names)
                           /\ error = Error (lit "Unknown tool: " ++ toolName))
                          \/ (toolName = lit "airtable_get_records"
                              /\ getRecords axios g args = (Throw error, []))
                          \/ (toolName = lit "airtable_create_record"
                              /\ createRecord axios g args = (Throw error, []))
                          \/ (toolName = lit "airtable_update_record"
                              /\ updateRecord axios g args = (Throw error, []))
                          \/ (toolName = lit "airtable_delete_record"
                              /\ deleteRecord axios g args
                                 = (Throw error, []))))
                     \/ exists req,
                          calls (executeAirtableTool axios g toolName args)
                          = [req]
                          /\ axios req = Throw error))).
Proof.
  rewrite executeAirtableTool_selected.
  assert (Hcalled : forall prefix req,
            prefix = success_prefix toolName ->
            selected axios g toolName args = (settle axios prefix req, [req]) ->
            exists t e,
              fst (try_catch (selected axios g toolName args)
                     (fun error => mret (failure error)))
              = Return {| content := [ {| type := lit "text"; text := t |} ];
                          isError := e |}
              /\ ((e = None
                   /\ exists req' d,
                        calls (try_catch (selected axios g toolName args)
                                 (fun error => mret (failure error))) = [req']
                        /\ axios req' = Return d
                        /\ t = success_prefix toolName ++ JSON_stringify d)
                  \/ (e = Some true
                      /\ exists error,
                           t = lit "Error: " ++ message error
                           /\ exists req',
                                calls (try_catch
                                         (selected axios g toolName args)
                                         (fun error => mret (failure error)))
                                = [req']
                                /\ axios req' = Throw error))).
  { intros prefix req -> ->. unfold settle.
    destruct (axios req) as [d|error] eqn:Hreq; cbn [try_catch fst snd calls].
    - eexists _, _. split; [reflexivity|]. left. split; [reflexivity|].
      exists req, d. repeat split; [exact Hreq].
    - eexists _, _. split; [reflexivity|]. right. split; [reflexivity|].
      exists error. split; [reflexivity|].
      exists req. split; [reflexivity|exact Hreq]. }
  assert (Hthrew : forall error,
            selected axios g toolName args = (Throw error, []) ->
            fst (try_catch (selected axios g toolName args)
                   (fun error => mret (failure error)))
            = Return (failure error)
            /\ calls (try_catch (selected axios g toolName args)
                        (fun error => mret (failure error))) = []).
  { intros error ->. split; reflexivity. }
  destruct (selected_registered toolName args)
    as [ [Hn Hs] | [ [Hn Hs] | [ [Hn Hs] | [ [Hn Hs] | [Hout Hs] ] ] ] ].
  - destruct (helper_run_outcome _ _ (getRecords_run axios g args))
      as [ [error E] | [req E] ].
    + destruct (Hthrew error) as [Hf Hc]; [rewrite Hs; exact E|].
      eexists _, _. split; [exact Hf|]. right. split; [reflexivity|].
      exists error. split; [reflexivity|]. left. split; [exact Hc|].
      right; left. split; [exact Hn|exact E].
    + destruct (Hcalled [] req) as (t & e & Hf & Hcase);
        [rewrite Hn; reflexivity|rewrite Hs; exact E|].
      exists t, e. split; [exact Hf|].
      destruct Hcase as [Hok | (He & error & Ht & Hrej)];
        [left; exact Hok|right].
      split; [exact He|]. exists error. split; [exact Ht|right; exact Hrej].
  - destruct (helper_run_outcome _ _ (createRecord_run axios g args))
      as [ [error E] | [req E] ].
    + destruct (Hthrew error) as [Hf Hc]; [rewrite Hs; exact E|].
      eexists _, _. split; [exact Hf|]. right. split; [reflexivity|].
      exists error. split; [reflexivity|]. left. split; [exact Hc|].
      right; right; left. split; [exact Hn|exact E].
    + destruct (Hcalled (lit "Record created: ") req) as (t & e & Hf & Hcase);
        [rewrite Hn; reflexivity|rewrite Hs; exact E|].
      exists t, e. split; [exact Hf|].
      destruct Hcase as [Hok | (He & error & Ht & Hrej)];
        [left; exact Hok|right].
      split; [exact He|]. exists error. split; [exact Ht|right; exact Hrej].
  - destruct (helper_run_outcome _ _ (updateRecord_run axios g args))
      as [ [error E] | [req E] ].
    + destruct (Hthrew error) as [Hf Hc]; [rewrite Hs; exact E|].
      eexists _, _. split; [exact Hf|]. right. split; [reflexivity|].
      exists error. split; [reflexivity|]. left. split; [exact Hc|].
      right; right; right; left. split; [exact Hn|exact E].
    + destruct (Hcalled (lit "Record updated: ") req) as (t & e & Hf & Hcase);
        [rewrite Hn; reflexivity|rewrite Hs; exact E|].
      exists t, e. split; [exact Hf|].
      destruct Hcase as [Hok | (He & error & Ht & Hrej)];
        [left; exact Hok|right].
      split; [exact He|]. exists error. split; [exact Ht|right; exact Hrej].
  - destruct (helper_run_outcome _ _ (deleteRecord_run axios g args))
      as [ [error E] | [req E] ].
    + destruct (Hthrew error) as [Hf Hc]; [rewrite Hs; exact E|].
      eexists _, _. split; [exact Hf|]. right. split; [reflexivity|].
      exists error. split; [reflexivity|]. left. split; [exact Hc|].
      right; right; right; right. split; [exact Hn|exact E].
    + destruct (Hcalled (lit "Record deleted: ") req) as (t & e & Hf & Hcase);
        [rewrite Hn; reflexivity|rewrite Hs; exact E|].
      exists t, e. split; [exact Hf|].
      destruct Hcase as [Hok | (He & error & Ht & Hrej)];
        [left; exact Hok|right].
      split; [exact He|]. exists error. split; [exact Ht|right; exact Hrej].
  - destruct (Hthrew (Error (lit "Unknown tool: " ++ toolName)))
      as [Hf Hc]; [exact Hs|].
    eexists _, _. split; [exact Hf|]. right. split; [reflexivity|].
    eexists. split; [reflexivity|]. left. split; [exact Hc|].
    left. split; [exact Hout|reflexivity].
Qed.

(** X6.  Update and delete do not reject a missing record id: when the
    arguments can be read but have no [recordId], the call still goes out,
    to the address of the table followed by "/undefined". *)
Theorem missing_record_id_goes_to_undefined
  (toolName : jsstring) (args : value) :
  toolName = lit "airtable_update_record"
  \/ toolName = lit "airtable_delete_record" ->
  nullish args = false ->
  ~ supplies args (lit "recordId") ->
  is_Some (utf8_string (show (AIRTABLE_TABLE_NAME g))) ->
  exists req segment,
    calls (executeAirtableTool axios g toolName args) = [req]
    /\ encodeURIComponent (show (AIRTABLE_TABLE_NAME g)) = Return segment
    /\ url req
       = lit "https://api.airtable.com/v0/" ++ show (AIRTABLE_BASE_ID g)
         ++ lit "/" ++ segment ++ lit "/undefined".
Proof.
  intros Hname Hargs Hno [segment [Henc Hu]]%table_url_returns.
  assert (Hurl : record_url g args
                 = Return (table_address g segment ++ lit "/"
                           ++ lit "undefined")).
  { apply (record_url_returns _ _ _ Hargs Hu).
    rewrite (read_not_supplied _ _ Hno). reflexivity. }
  rewrite executeAirtableTool_selected, calls_try_catch_result.
  unfold selected.
  destruct Hname as [-> | ->].
  - destruct (decide _) as [E|_]; [discriminate E|].
    destruct (decide _) as [E|_]; [discriminate E|].
    destruct (decide _); [|congruence].
    rewrite (updateRecord_sends _ _ _ _ Hurl).
    eexists _, segment. split; [reflexivity|]. split; [exact Henc|].
    cbn [url write_request]. unfold table_address.
    rewrite <- !app_assoc. reflexivity.
  - destruct (decide _) as [E|_]; [discriminate E|].
    destruct (decide _) as [E|_]; [discriminate E|].
    destruct (decide _) as [E|_]; [discriminate E|].
    destruct (decide _); [|congruence].
    rewrite (deleteRecord_sends _ _ _ _ Hurl).
    eexists _, segment. split; [reflexivity|]. split; [exact Henc|].
    cbn [url delete_request]. unfold table_address.
    rewrite <- !app_assoc. reflexivity.
Qed.

(** X7.  A list invocation in which [maxRecords], [filterByFormula] and
    [view] are all absent or falsy sends exactly the query
    [{maxRecords: 10}]: one parameter and no other. *)
Theorem default_list_query_is_maxRecords_10
  (args : value) (req : axios_request) :
  req ∈ calls (executeAirtableTool axios g (lit "airtable_get_records") args) ->
  ToBoolean (read args (lit "maxRecords")) = false ->
  ToBoolean (read args (lit "filterByFormula")) = false ->
  ToBoolean (read args (lit "view")) = false ->
  params req = Some {[ lit "maxRecords" := Some (JNum 10) ]}.
Proof.
  rewrite calls_list. intros (u & _ & ->)%getRecords_call Hm Hf Hv.
  cbn [params]. unfold list_query, js_or. rewrite Hm, Hf, Hv. reflexivity.
Qed.

Lemma getRecords_early args e :
  nullish args = false -> table_url g = Throw e ->
  getRecords axios g args = (Throw e, []).
Proof.
  intros Hargs Hu. unfold getRecords.
  do 3 (rewrite lift_bind, (get_prop_readable _ _ Hargs)).
  rewrite lift_bind, Hu. reflexivity.
Qed.

Lemma list_query_agree args args' :
  (forall k, k = lit "maxRecords" \/ k = lit "filterByFormula"
             \/ k = lit "view" -> read args k = read args' k) ->
  list_query args = list_query args'.
Proof.
  intros Hk. unfold list_query.
  rewrite (Hk (lit "maxRecords")), (Hk (lit "filterByFormula")),
    (Hk (lit "view")) by tauto.
  reflexivity.
Qed.

Lemma getRecords_agree args args' :
  nullish args = false -> nullish args' = false ->
  (forall k, k = lit "maxRecords" \/ k = lit "filterByFormula"
             \/ k = lit "view" -> read args k = read args' k) ->
  getRecords axios g args = getRecords axios g args'.
Proof.
  intros Ha Ha' Hk. destruct (table_url g) as [u|e] eqn:Hu.
  - rewrite (getRecords_sends _ _ _ _ Ha Hu), (getRecords_sends _ _ _ _ Ha' Hu).
    unfold list_request. rewrite (list_query_agree _ _ Hk). reflexivity.
  - rewrite (getRecords_early _ _ Ha Hu), (getRecords_early _ _ Ha' Hu).
    reflexivity.
Qed.

Lemma createRecord_agree args args' :
  nullish args = false -> nullish args' = false ->
  read args (lit "fields") = read args' (lit "fields") ->
  createRecord axios g args = createRecord axios g args'.
Proof.
  intros Ha Ha' Hf. destruct (table_url g) as [u|e] eqn:Hu.
  - rewrite (createRecord_sends _ _ _ _ Ha Hu),
      (createRecord_sends _ _ _ _ Ha' Hu).
    unfold write_request. rewrite Hf. reflexivity.
  - rewrite !(createRecord_early _ _ _ _ Hu). reflexivity.
Qed.

Lemma record_url_agree args args' :
  nullish args = false -> nullish args' = false ->
  read args (lit "recordId") = read args' (lit "recordId") ->
  record_url g args = record_url g args'.
Proof.
  intros Ha Ha' Hr. unfold record_url, mbind, outcome_bind.
  destruct (table_url g); [|reflexivity]. cbn [obind].
  rewrite (get_prop_readable _ _ Ha), (get_prop_readable _ _ Ha'), Hr.
  reflexivity.
Qed.

Lemma updateRecord_agree args args' :
  nullish args = false -> nullish args' = false ->
  read args (lit "recordId") = read args' (lit "recordId") ->
  read args (lit "fields") = read args' (lit "fields") ->
  updateRecord axios g args = updateRecord axios g args'.
Proof.
  intros Ha Ha' Hr Hf.
  pose proof (record_url_agree _ _ Ha Ha' Hr) as Hurl.
  destruct (record_url g args) as [u|e] eqn:Hu; symmetry in Hurl.
  - rewrite (updateRecord_sends _ _ _ _ Hu), (updateRecord_sends _ _ _ _ Hurl).
    unfold write_request. rewrite Hf. reflexivity.
  - rewrite (updateRecord_early _ _ _ _ Hu), (updateRecord_early _ _ _ _ Hurl).
    reflexivity.
Qed.

Lemma deleteRecord_agree args args' :
  nullish args = false -> nullish args' = false ->
  read args (lit "recordId") = read args' (lit "recordId") ->
  deleteRecord axios g args = deleteRecord axios g args'.
Proof.
  intros Ha Ha' Hr.
  pose proof (record_url_agree _ _ Ha Ha' Hr) as Hurl.
  destruct (record_url g args) as [u|e] eqn:Hu; symmetry in Hurl.
  - rewrite (deleteRecord_sends _ _ _ _ Hu), (deleteRecord_sends _ _ _ _ Hurl).
    reflexivity.
  - rewrite (deleteRecord_early _ _ _ _ Hu), (deleteRecord_early _ _ _ _ Hurl).
    reflexivity.
Qed.

(** X8.  A tool looks at the properties its input schema declares and at
    nothing else: two argument objects that agree on the declared
    properties of a catalogue entry are dispatched to the same call and
    the same result, whatever other keys they hold. *)
Theorem undeclared_arguments_are_ignored
  (t : tool) (props props' : gmap jsstring json) :
  t ∈ tools ->
  (forall p, p ∈ properties t ->
     props !! prop_name p = props' !! prop_name p) ->
  executeAirtableTool axios g (name t) (Some (JObj props))
  = executeAirtableTool axios g (name t) (Some (JObj props')).
Proof.
  intros Ht Hagree. rewrite !executeAirtableTool_selected. f_equal.
  unfold tools in Ht. rewrite !elem_of_cons, elem_of_nil in Ht.
  unfold selected.
  destruct Ht as [-> | [-> | [-> | [-> | [] ] ] ] ]; cbn [name properties] in *.
  - destruct (decide _); [|congruence].
    apply getRecords_agree; [reflexivity|reflexivity|].
    intros k [-> | [-> | ->] ];
      [ apply (Hagree {| prop_name := lit "maxRecords";
                         prop_type := lit "number"; prop_default := Some 10 |})
      | apply (Hagree {| prop_name := lit "filterByFormula";
                         prop_type := lit "string"; prop_default := None |})
      | apply (Hagree {| prop_name := lit "view";
                         prop_type := lit "string"; prop_default := None |}) ];
      set_solver.
  - destruct (decide _) as [E|_]; [discriminate E|].
    destruct (decide _); [|congruence].
    apply createRecord_agree; [reflexivity|reflexivity|].
    apply (Hagree {| prop_name := lit "fields";
                     prop_type := lit "object"; prop_default := None |}).
    set_solver.
  - destruct (decide _) as [E|_]; [discriminate E|].
    destruct (decide _) as [E|_]; [discriminate E|].
    destruct (decide _); [|congruence].
    apply updateRecord_agree; [reflexivity|reflexivity| |].
    + apply (Hagree {| prop_name := lit "recordId";
                       prop_type := lit "string"; prop_default := None |}).
      set_solver.
    + apply (Hagree {| prop_name := lit "fields";
                       prop_type := lit "object"; prop_default := None |}).
      set_solver.
  - destruct (decide _) as [E|_]; [discriminate E|].
    destruct (decide _) as [E|_]; [discriminate E|].
    destruct (decide _) as [E|_]; [discriminate E|].
    destruct (decide _); [|congruence].
    apply deleteRecord_agree; [reflexivity|reflexivity|].
    apply (Hagree {| prop_name := lit "recordId";
                     prop_type := lit "string"; prop_default := None |}).
    set_solver.
Qed.

End MoreDispatcher.

(** ** Further properties of the table's address *)

Section MoreEncoding.
Context `{Host}.

Lemma encodeURIComponent_unreserved s :
  forallb uriUnreserved s = true -> encodeURIComponent s = Return s.
Proof.
  induction s as [|c s IH]; [reflexivity|].
  cbn [forallb encodeURIComponent]. intros [Hc Hs]%andb_true_iff.
  rewrite Hc, (IH Hs). reflexivity.
Qed.

Lemma utf8_cons cp : exists o rest, utf8 cp = o :: rest.
Proof.
  unfold utf8.
  destruct (cp <? 128); [eexists _, _; reflexivity|].
  destruct (cp <? 2048); [eexists _, _; reflexivity|].
  destruct (cp <? 65536); eexists _, _; reflexivity.
Qed.

(** The UTF-8 octets of a code point can be told from what follows
    them. *)
Lemma utf8_prefix_free cp cp' (b b' : list N) :
  cp < 1114112 -> cp' < 1114112 ->
  utf8 cp ++ b = utf8 cp' ++ b' -> cp = cp' /\ b = b'.
Proof.
  intros Hcp Hcp'. unfold utf8.
  destruct (N.ltb_spec cp 128), (N.ltb_spec cp' 128);
    [| destruct (N.ltb_spec cp' 2048); [|destruct (N.ltb_spec cp' 65536)]
     | destruct (N.ltb_spec cp 2048); [|destruct (N.ltb_spec cp 65536)]
     | destruct (N.ltb_spec cp 2048), (N.ltb_spec cp' 2048);
       [| destruct (N.ltb_spec cp' 65536)
        | destruct (N.ltb_spec cp 65536)
        | destruct (N.ltb_spec cp 65536), (N.ltb_spec cp' 65536)] ];
    cbn [app]; intros E; injection E; clear E; intros;
    (assert (Heq : cp = cp')
      by (zify; Z.to_euclidean_division_equations; lia));
    (split; [exact Heq|]);
    first [assumption | exfalso; lia].
Qed.

(** The first code point of a string with UTF-8 octets. *)
Lemma utf8_string_step s b :
  code_units s -> utf8_string s = Some b ->
  (s = [] /\ b = [])
  \/ exists cp (k rest b' : list N),
       s = k ++ rest /\ b = utf8 cp ++ b' /\ utf8_string rest = Some b'
       /\ cp < 1114112 /\ (length rest < length s)%nat /\ code_units rest
       /\ ((k = [cp] /\ cp < 65536)
           \/ exists c d, k = [c; d] /\ is_lead c = true
                          /\ is_trail d = true /\ cp = pair_code_point c d).
Proof.
  intros Hwf. destruct s as [|c rest]; cbn [utf8_string].
  { intros [= <-]. left. split; reflexivity. }
  apply Forall_cons in Hwf as [Hc Hrest].
  destruct (is_lead c) eqn:Hlead.
  - destruct rest as [|d rest']; [discriminate|].
    destruct (is_trail d) eqn:Htrail; [|discriminate].
    apply Forall_cons in Hrest as [Hd Hrest'].
    destruct (utf8_string rest') as [b'|] eqn:Hb; [|discriminate].
    intros [= <-]. right.
    exists (pair_code_point c d), [c; d], rest', b'.
    split; [reflexivity|]. split; [reflexivity|]. split; [exact Hb|].
    split.
    { unfold pair_code_point. apply in_range_spec in Hlead.
      apply in_range_spec in Htrail. lia. }
    split; [cbn; lia|]. split; [exact Hrest'|].
    right. exists c, d. repeat split; assumption.
  - destruct (is_trail c); [discriminate|].
    destruct (utf8_string rest) as [b'|] eqn:Hb; [|discriminate].
    intros [= <-]. right.
    exists c, [c], rest, b'.
    split; [reflexivity|]. split; [reflexivity|]. split; [exact Hb|].
    split; [lia|]. split; [cbn; lia|]. split; [exact Hrest|].
    left. split; [reflexivity|exact Hc].
Qed.

(** Two strings with the same UTF-8 octets are the same string. *)
Lemma utf8_string_inj s1 :
  forall s2 b,
    code_units s1 -> code_units s2 ->
    utf8_string s1 = Some b -> utf8_string s2 = Some b -> s1 = s2.
Proof.
  induction s1 as [s1 IH] using (induction_ltof1 _ (@length N)).
  unfold ltof in IH. intros s2 b Hwf1 Hwf2 H1 H2.
  destruct (utf8_string_step _ _ Hwf1 H1)
    as [ [-> ->] | (cp1 & k1 & r1 & b1 & -> & -> & Hr1 & Hcp1 & Hlen & Hwr1 & Hk1) ];
    destruct (utf8_string_step _ _ Hwf2 H2)
    as [ [-> Hb] | (cp2 & k2 & r2 & b2 & -> & Hb & Hr2 & Hcp2 & _ & Hwr2 & Hk2) ].
  - reflexivity.
  - destruct (utf8_cons cp2) as (o & rest & E). rewrite E in Hb. discriminate Hb.
  - destruct (utf8_cons cp1) as (o & rest & E). rewrite E in Hb. discriminate Hb.
  - destruct (utf8_prefix_free _ _ _ _ Hcp1 Hcp2 Hb) as [<- <-].
    rewrite (IH r1 Hlen r2 b1 Hwr1 Hwr2 Hr1 Hr2). f_equal.
    destruct Hk1 as [ [-> Hlt1] | (c1 & d1 & -> & Hl1 & Ht1 & E1) ];
      destruct Hk2 as [ [-> Hlt2] | (c2 & d2 & -> & Hl2 & Ht2 & E2) ].
    + reflexivity.
    + exfalso. unfold pair_code_point in E2. lia.
    + exfalso. unfold pair_code_point in E1. lia.
    + apply in_range_spec in Hl1, Hl2, Ht1, Ht2.
      unfold pair_code_point in E1, E2.
      assert (c1 = c2 /\ d1 = d2) as [-> ->] by lia. reflexivity.
Qed.

(** Encoding is injective on strings of 16-bit code units. *)
Lemma encodeURIComponent_inj s1 s2 segment :
  code_units s1 -> code_units s2 ->
  encodeURIComponent s1 = Return segment ->
  encodeURIComponent s2 = Return segment -> s1 = s2.
Proof.
  intros Hwf1 Hwf2 H1 H2.
  destruct (encodeURIComponent_encoded _ Hwf1 _ H1) as (_ & b1 & Hu1 & Hd1).
  destruct (encodeURIComponent_encoded _ Hwf2 _ H2) as (_ & b2 & Hu2 & Hd2).
  rewrite Hd1 in Hd2. injection Hd2 as <-.
  exact (utf8_string_inj _ _ _ Hwf1 Hwf2 Hu1 Hu2).
Qed.

(** A list is cut in one way only at the last occurrence of [x]. *)
Lemma cut_at_first {A} (x : A) (a1 a2 c1 c2 : list A) :
  x ∉ a1 -> x ∉ a2 -> a1 ++ x :: c1 = a2 ++ x :: c2 -> a1 = a2 /\ c1 = c2.
Proof.
  revert a2. induction a1 as [|y a1 IH]; intros [|z a2] H1 H2 E;
    cbn [app] in E.
  - injection E as ->. split; reflexivity.
  - injection E as <- _. exfalso. apply H2. left.
  - injection E as -> _. exfalso. apply H1. left.
  - injection E as -> E.
    apply not_elem_of_cons in H1 as [_ H1].
    apply not_elem_of_cons in H2 as [_ H2].
    destruct (IH a2 H1 H2 E) as [-> ->]. split; reflexivity.
Qed.

Lemma cut_at_last {A} (x : A) (a1 a2 c1 c2 : list A) :
  x ∉ c1 -> x ∉ c2 -> a1 ++ x :: c1 = a2 ++ x :: c2 -> a1 = a2 /\ c1 = c2.
Proof.
  intros H1 H2 E. apply (f_equal (@rev A)) in E.
  rewrite !rev_app_distr in E. cbn [rev] in E. rewrite <- !app_assoc in E.
  cbn [app] in E.
  apply cut_at_first in E as [Ec Ea].
  - split; apply rev_inj; assumption.
  - intros Hx. apply H1, list_elem_of_In, in_rev, list_elem_of_In, Hx.
  - intros Hx. apply H2, list_elem_of_In, in_rev, list_elem_of_In, Hx.
Qed.

Lemma url_safe_no_slash segment :
  forallb url_safe segment = true -> 47 ∉ segment.
Proof.
  induction segment as [|c segment IH]; [intros _; apply not_elem_of_nil|].
  cbn [forallb]. intros [Hc Hs]%andb_true_iff.
  apply not_elem_of_cons. split; [|exact (IH Hs)].
  intros <-. discriminate Hc.
Qed.

Variable axios : axios_request -> outcome json.

(** X9.  A table name made of unreserved characters only (letters,
    digits and [- _ . ! ~ * ' ( )]) appears in the address unchanged: a
    list or create call goes to "https://api.airtable.com/v0/" + base id
    + "/" + table name, and an update or delete call goes to that
    address followed by "/" and the record id converted to a string. *)
Theorem plain_table_name_is_used_verbatim
  (g : globals) (toolName : jsstring) (args : value) (req : axios_request) :
  forallb uriUnreserved (show (AIRTABLE_TABLE_NAME g)) = true ->
  req ∈ calls (executeAirtableTool axios g toolName args) ->
  ((toolName = lit "airtable_get_records"
    \/ toolName = lit "airtable_create_record")
   /\ url req
      = lit "https://api.airtable.com/v0/" ++ show (AIRTABLE_BASE_ID g)
        ++ lit "/" ++ show (AIRTABLE_TABLE_NAME g))
  \/ ((toolName = lit "airtable_update_record"
       \/ toolName = lit "airtable_delete_record")
      /\ exists id,
           ToString (read args (lit "recordId")) = Return id
           /\ url req
              = (lit "https://api.airtable.com/v0/"
                 ++ show (AIRTABLE_BASE_ID g)
                 ++ lit "/" ++ show (AIRTABLE_TABLE_NAME g))
                ++ lit "/" ++ id).
Proof.
  intros Hplain Hin.
  assert (Hu : table_url g
               = Return (lit "https://api.airtable.com/v0/"
                         ++ show (AIRTABLE_BASE_ID g) ++ lit "/"
                         ++ show (AIRTABLE_TABLE_NAME g))).
  { unfold table_url, mbind, outcome_bind.
    rewrite (encodeURIComponent_unreserved _ Hplain). reflexivity. }
  destruct (executeAirtableTool_call axios g toolName args req Hin)
    as [ [Hname Hurl] | [Hname Hurl] ].
  - left. split; [exact Hname|].
    rewrite Hu in Hurl. injection Hurl as <-. reflexivity.
  - right. split; [exact Hname|].
    apply record_url_inv in Hurl as (base & id & Hbase & Hid & ->).
    rewrite Hu in Hbase. injection Hbase as <-.
    exists id. split; [exact Hid|reflexivity].
Qed.

(** X10.  The address of a table determines the base id and the table
    name: when a list or create call of one configuration goes to the
    same address as a list or create call of another, the two
    configurations have the same base id and the same table name.  (An
    encoded table name holds no "/", so the address is cut in one way
    only.) *)
Theorem table_address_determines_base_and_table
  (axios' : axios_request -> outcome json) (g g' : globals)
  (toolName toolName' : jsstring) (args args' : value)
  (req req' : axios_request) :
  code_units (show (AIRTABLE_TABLE_NAME g)) ->
  code_units (show (AIRTABLE_TABLE_NAME g')) ->
  toolName = lit "airtable_get_records"
  \/ toolName = lit "airtable_create_record" ->
  toolName' = lit "airtable_get_records"
  \/ toolName' = lit "airtable_create_record" ->
  req ∈ calls (executeAirtableTool axios g toolName args) ->
  req' ∈ calls (executeAirtableTool axios' g' toolName' args') ->
  url req = url req' ->
  show (AIRTABLE_BASE_ID g) = show (AIRTABLE_BASE_ID g')
  /\ show (AIRTABLE_TABLE_NAME g) = show (AIRTABLE_TABLE_NAME g').
Proof.
  intros Hwf Hwf' Hname Hname' Hin Hin' Hurl.
  assert (Hu : table_url g = Return (url req)).
  { destruct (executeAirtableTool_call axios g toolName args req Hin)
      as [ [_ Hu] | [ [-> | ->] _] ]; [exact Hu| |];
      destruct Hname as [E | E]; discriminate E. }
  assert (Hu' : table_url g' = Return (url req')).
  { destruct (executeAirtableTool_call axios' g' toolName' args' req' Hin')
      as [ [_ Hu'] | [ [-> | ->] _] ]; [exact Hu'| |];
      destruct Hname' as [E | E]; discriminate E. }
  apply table_url_inv in Hu as (segment & Henc & Hu).
  apply table_url_inv in Hu' as (segment' & Henc' & Hu').
  rewrite Hu, Hu' in Hurl.
  apply app_inv_head in Hurl.
  destruct (encodeURIComponent_encoded _ Hwf _ Henc) as [Hsafe _].
  destruct (encodeURIComponent_encoded _ Hwf' _ Henc') as [Hsafe' _].
  apply (cut_at_last 47) in Hurl as [Hbase Hseg];
    [|apply url_safe_no_slash; assumption..].
  split; [exact Hbase|]. subst segment'.
  exact (encodeURIComponent_inj _ _ _ Hwf Hwf' Henc Henc').
Qed.

End MoreEncoding.

(** ** Further properties of the HTTP front door *)

Section MoreFrontDoor.
Context `{Host}.
Variable axios : axios_request -> outcome json.
Variable g : globals.

(** The handler of [POST /tools/:toolName] sends what the dispatcher
    returns and makes the dispatcher's calls, no other. *)
Lemma post_tool_runs toolName args :
  exists result,
    executeAirtableTool axios g toolName args
    = (Return result, calls (executeAirtableTool axios g toolName args))
    /\ post_tool axios g toolName args
       = (Return (res_json (ResultBody result)),
          calls (executeAirtableTool axios g toolName args)).
Proof.
  unfold post_tool.
  destruct (executeAirtableTool_run axios g toolName args)
    as [[e E]|[req E]]; rewrite E; eexists; split; reflexivity.
Qed.

Lemma unregistered_no_calls toolName args :
  toolName ∉ tool_names ->
  calls (executeAirtableTool axios g toolName args) = [].
Proof.
  intros Hout.
  rewrite executeAirtableTool_selected, (selected_unknown _ _ _ _ Hout).
  reflexivity.
Qed.

Lemma at_most_one_call toolName args r :
  r ∈ calls (executeAirtableTool axios g toolName args) ->
  calls (executeAirtableTool axios g toolName args) = [r].
Proof.
  destruct (executeAirtableTool_run axios g toolName args)
    as [[e E]|[req E]]; rewrite E; cbn [calls snd].
  - intros Hin. apply elem_of_nil in Hin. destruct Hin.
  - intros ->%list_elem_of_singleton. reflexivity.
Qed.

(** X11.  The server calls the upstream only on behalf of an authorized
    tool invocation: when handling a request makes an upstream call, the
    request is a [POST /tools/:toolName] whose body the parser accepted,
    its Authorization header is exactly "Bearer " followed by the server
    secret, the tool is one of the four in the catalogue, and the call is
    the single call of that dispatch.  No other route, and no request
    without the right header, ever reaches the upstream. *)
Theorem upstream_call_needs_authorized_tool_call
  (now : jsstring) (req : http_request) (r : axios_request) :
  r ∈ calls (handle axios g now req) ->
  exists toolName body,
    target req = ToolCall toolName
    /\ parse req = Parsed body
    /\ authorization req = Some (lit "Bearer " ++ show (MCP_SERVER_SECRET g))
    /\ toolName ∈ tool_names
    /\ calls (handle axios g now req) = [r]
    /\ calls (executeAirtableTool axios g toolName body) = [r].
Proof.
  unfold handle.
  destruct (parse req) as [st|body] eqn:Hparse;
    [intros Hin; apply elem_of_nil in Hin; destruct Hin|].
  destruct (decide (authorization req
                    = Some (lit "Bearer " ++ show (MCP_SERVER_SECRET g))))
    as [Hauth|Hauth].
  - destruct (target req) as [| | |toolName|] eqn:Htarget;
      rewrite ?(authenticate_accepts _ _ _ Hauth);
      try (intros Hin; apply elem_of_nil in Hin; destruct Hin).
    destruct (post_tool_runs toolName body) as (result & _ & ->).
    cbn [calls snd]. intros Hin.
    pose proof (at_most_one_call _ _ _ Hin) as Hone.
    exists toolName, body. repeat (split; [reflexivity || assumption|]).
    split; [|split; assumption].
    destruct (decide (toolName ∈ tool_names)) as [?|Hout]; [assumption|].
    rewrite (unregistered_no_calls _ _ Hout) in Hin.
    apply elem_of_nil in Hin. destruct Hin.
  - destruct (target req) eqn:Htarget;
      rewrite ?(authenticate_rejects _ _ _ Hauth);
      intros Hin; apply elem_of_nil in Hin; destruct Hin.
Qed.

(** X12.  For an authorized tool invocation a failure shows in the body
    only, never in the HTTP status: when the tool name is unknown, or when
    the upstream rejects the call, the response is still 200, and its body
    is the result with [isError] true and a text that starts with
    "Error: ". *)
Theorem tool_failure_is_http_200
  (now : jsstring) (req : http_request) (toolName : jsstring) (body : value)
  (error : js_error) :
  target req = ToolCall toolName ->
  parse req = Parsed body ->
  authorization req = Some (lit "Bearer " ++ show (MCP_SERVER_SECRET g)) ->
  ((toolName ∉ tool_names)
   /\ error = Error (lit "Unknown tool: " ++ toolName))
  \/ (exists r, r ∈ calls (executeAirtableTool axios g toolName body)
                /\ axios r = Throw error) ->
  fst (handle axios g now req)
  = Return {| status := 200;
              sent := ResultBody
                        {| content :=
                             [ {| type := lit "text";
                                  text := lit "Error: " ++ message error |} ];
                           isError := Some true |} |}.
Proof.
  intros Htarget Hparse Hauth Hfail. unfold handle.
  rewrite Hparse, Htarget, (authenticate_accepts _ _ _ Hauth).
  unfold post_tool.
  destruct Hfail as [ [Hout ->] | (r & Hin & Hr) ].
  - rewrite executeAirtableTool_selected, (selected_unknown _ _ _ _ Hout).
    reflexivity.
  - destruct (executeAirtableTool_run axios g toolName body)
      as [[e E]|[r' E]]; rewrite E in Hin |- *; cbn [calls snd] in Hin.
    + apply elem_of_nil in Hin. destruct Hin.
    + apply list_elem_of_singleton in Hin. subst r'.
      unfold wrapped. rewrite Hr. reflexivity.
Qed.

(** X13.  [GET /tools] with a body the parser accepted answers 200 with
    the catalogue exactly when the Authorization header is "Bearer "
    followed by the server secret, and 401 otherwise; in both cases without
    any upstream call, and whatever the body holds. *)
Theorem tools_listing_iff_authorized
  (now : jsstring) (req : http_request) (body : value) :
  target req = Tools ->
  parse req = Parsed body ->
  calls (handle axios g now req) = []
  /\ (authorization req = Some (lit "Bearer " ++ show (MCP_SERVER_SECRET g)) ->
      fst (handle axios g now req)
      = Return {| status := 200; sent := Catalogue tools |})
  /\ (authorization req <> Some (lit "Bearer " ++ show (MCP_SERVER_SECRET g)) ->
      fst (handle axios g now req)
      = Return {| status := 401; sent := ErrorBody (lit "Unauthorized") |}).
Proof.
  intros Htarget Hparse. unfold handle. rewrite Hparse, Htarget.
  destruct (decide (authorization req
                    = Some (lit "Bearer " ++ show (MCP_SERVER_SECRET g))))
    as [Hauth|Hauth].
  - rewrite (authenticate_accepts _ _ _ Hauth).
    split; [reflexivity|]. split; [reflexivity|]. intros Hne. contradiction.
  - rewrite (authenticate_rejects _ _ _ Hauth).
    split; [reflexivity|]. split; [intros He; contradiction|reflexivity].
Qed.

(** X14.  The routes [/], [/health] and [/debug] are open: once the
    parser accepted the body, the response is 200, no upstream call is
    made, and the response is the same whatever the Authorization header,
    the body and the upstream are. *)
Theorem open_routes_ignore_authorization
  (axios' : axios_request -> outcome json)
  (now : jsstring) (req req' : http_request) (body body' : value) :
  target req = Root \/ target req = Health \/ target req = Debug ->
  target req' = target req ->
  parse req = Parsed body ->
  parse req' = Parsed body' ->
  handle axios g now req = handle axios' g now req'
  /\ calls (handle axios g now req) = []
  /\ exists response,
       fst (handle axios g now req) = Return response
       /\ status response = 200.
Proof.
  intros Hopen Htarget Hparse Hparse'. unfold handle.
  rewrite Hparse, Hparse', Htarget.
  destruct Hopen as [-> | [-> | ->] ];
    (split; [reflexivity|]); (split; [reflexivity|]);
    eexists; split; reflexivity.
Qed.

End MoreFrontDoor.

(** ** Further properties of startup and of the debug endpoint *)

Lemma missing_configuration_unset env k :
  k ∈ required_variables -> is_set (env !! k) = false ->
  missing_configuration (load env) = true.
Proof.
  unfold required_variables. rewrite !elem_of_cons, elem_of_nil.
  intros [-> | [-> | [-> | [-> | [] ] ] ] ] Hunset;
    unfold missing_configuration, load;
    cbn [AIRTABLE_API_TOKEN AIRTABLE_BASE_ID AIRTABLE_TABLE_NAME
         MCP_SERVER_SECRET];
    rewrite Hunset; cbn [negb orb];
    rewrite ?orb_true_r; reflexivity.
Qed.

Lemma is_set_of_nonempty (x : option jsstring) (s : jsstring) :
  x = Some s -> s <> [] -> is_set x = true.
Proof. intros -> Hs. destruct s; [contradiction|reflexivity]. Qed.

(** X15.  A required variable that is set to the empty string counts as
    missing: the module body ends in [process.exit(1)] and never reaches
    [app.listen]. *)
Theorem empty_variable_counts_as_missing (env : environment) (k : jsstring) :
  k ∈ required_variables -> env !! k = Some [] ->
  last (main env) = Some (ProcessExit 1)
  /\ forall p host, Listen p host ∉ main env.
Proof.
  intros Hk Hempty.
  assert (Hm : missing_configuration (load env) = true).
  { apply (missing_configuration_unset env k Hk).
    destruct (env !! k) as [s|]; [|reflexivity].
    injection Hempty as ->. reflexivity. }
  split; [rewrite (main_missing env Hm); reflexivity|].
  intros p host Hin. apply listen_complete in Hin. congruence.
Qed.

(** X16.  When the four required variables are all set and non-empty the
    module body logs its banner and calls [app.listen] on host "0.0.0.0",
    and does nothing else: it does not exit.  The port is the text of
    [PORT] when that variable is set and non-empty, and the number 3000
    when it is absent or empty. *)
Theorem complete_configuration_listens (env : environment) :
  (forall k, k ∈ required_variables ->
     exists s, env !! k = Some s /\ s <> []) ->
  exists p,
    main env
    = [ ConsoleLog (lit "Starting HTTP MCP Airtable Server...");
        Listen p (lit "0.0.0.0") ]
    /\ (env !! lit "PORT" = None \/ env !! lit "PORT" = Some [] ->
        p = PortNumber 3000)
    /\ (forall s, env !! lit "PORT" = Some s -> s <> [] -> p = PortText s).
Proof.
  intros Hall.
  assert (Hset : forall k, k ∈ required_variables -> is_set (env !! k) = true).
  { intros k Hk. destruct (Hall k Hk) as (s & Hs & Hne).
    exact (is_set_of_nonempty _ _ Hs Hne). }
  assert (Hm : missing_configuration (load env) = false).
  { unfold missing_configuration, load;
      cbn [AIRTABLE_API_TOKEN AIRTABLE_BASE_ID AIRTABLE_TABLE_NAME
           MCP_SERVER_SECRET].
    rewrite !Hset by (unfold required_variables; set_solver). reflexivity. }
  exists (PORT (load env)). split; [exact (main_complete env Hm)|].
  pose (port_of := fun x : option jsstring =>
                      match x with
                      | Some (c :: s) => PortText (c :: s)
                      | _ => PortNumber 3000
                      end).
  change (PORT (load env)) with (port_of (env !! lit "PORT")). split.
  - intros [E | E]; exact (f_equal port_of E).
  - intros s E Hne. transitivity (port_of (Some s));
      [exact (f_equal port_of E)|].
    destruct s; [contradiction|reflexivity].
Qed.

Section MoreDebug.
Context `{Host}.
Variable axios : axios_request -> outcome json.

(** X17.  The preview of [/debug] shows the first five code units of the
    secret, so a secret of at most five code units is disclosed in full:
    in a process that reached [app.listen] the body is then
    [{hasSecret: true, secretLength: n, secretPreview: secret + "..."}]. *)
Theorem short_secret_is_disclosed_in_full
  (env : environment) (p : port) (host : jsstring) (secret : jsstring)
  (now : jsstring) (auth : option jsstring) (body : value) :
  Listen p host ∈ main env ->
  env !! lit "MCP_SERVER_SECRET" = Some secret ->
  (length secret <= 5)%nat ->
  handle axios (load env) now
    {| target := Debug; authorization := auth; parse := Parsed body |}
  = (Return {| status := 200;
               sent := DebugBody true (js_length secret)
                         (secret ++ lit "...") |}, []).
Proof.
  intros Hin Hsecret Hshort.
  pose proof (complete_all_set _ (listen_complete _ _ _ Hin))
    as (_ & _ & _ & Hset).
  assert (Hg : MCP_SERVER_SECRET (load env) = Some secret) by exact Hsecret.
  unfold handle, debug. cbn [parse target].
  rewrite Hg in Hset |- *. rewrite Hset. cbn [show].
  unfold substring0. rewrite (take_ge secret 5) by exact Hshort.
  reflexivity.
Qed.

End MoreDebug.

(** ** The further properties at sample inputs *)

Lemma every_call_carries_the_token_witness :
  headers delete_rec123 = [ (lit "Authorization", lit "Bearer patXYZ") ].
Proof.
  apply (every_call_carries_the_token (H := sample_host) upstream_404
           sample_globals (lit "airtable_delete_record") rec123 delete_rec123).
  vm_compute. apply list_elem_of_here.
Defined.

Lemma call_shape_by_tool_witness :
  method patch_odd_record = PATCH
  /\ params patch_odd_record = None
  /\ data patch_odd_record = Some {[ lit "fields" := Some (JObj ∅) ]}.
Proof.
  destruct (call_shape_by_tool (H := sample_host) upstream_ok sample_globals
              (lit "airtable_update_record") odd_record_id patch_odd_record)
    as (_ & Hm & Hshape).
  - vm_compute. apply list_elem_of_here.
  - split; [exact Hm|]. rewrite Hm in Hshape. exact Hshape.
Defined.

Lemma registered_tool_calls_once_witness :
  exists req,
    calls (executeAirtableTool (H := sample_host) upstream_ok sample_globals
             (lit "airtable_create_record") no_arguments) = [req]
    /\ method req = POST.
Proof.
  apply (registered_tool_calls_once (H := sample_host) upstream_ok
           sample_globals (lit "airtable_create_record") no_arguments).
  - unfold tool_names, tools. cbn [map name]. set_solver.
  - reflexivity.
  - vm_compute. eexists. reflexivity.
  - intros [E | E]; discriminate E.
Defined.

Lemma nullish_arguments_fail_before_any_call_witness :
  exists k,
    executeAirtableTool (H := sample_host) upstream_ok sample_globals
      (lit "airtable_create_record") undefined
    = (Return {| content :=
                   [ {| type := lit "text";
                        text := lit "Error: "
                                ++ cannot_read_message (Host := sample_host)
                                     undefined k |} ];
                 isError := Some true |}, [])
    /\ k = lit "fields".
Proof.
  destruct (nullish_arguments_fail_before_any_call (H := sample_host)
              upstream_ok sample_globals (lit "airtable_create_record")
              undefined) as (k & Hrun & Hk).
  - unfold tool_names, tools. cbn [map name]. set_solver.
  - reflexivity.
  - vm_compute. eexists. reflexivity.
  - exists k. split; [exact Hrun|].
    destruct Hk as [ [E _] | [ [_ Hk] | [ [E | E] _] ] ];
      solve [exact Hk | discriminate E].
Defined.

Lemma missing_record_id_goes_to_undefined_witness :
  exists req,
    calls (executeAirtableTool (H := sample_host) upstream_ok sample_globals
             (lit "airtable_delete_record") no_arguments) = [req]
    /\ url req
       = lit "https://api.airtable.com/v0/app123/My%20Table/undefined".
Proof.
  destruct (missing_record_id_goes_to_undefined (H := sample_host)
              upstream_ok sample_globals (lit "airtable_delete_record")
              no_arguments) as (req & segment & Hcalls & Henc & Hurl).
  - right. reflexivity.
  - reflexivity.
  - intros (props & v & [= <-] & Hv). discriminate Hv.
  - vm_compute. eexists. reflexivity.
  - exists req. split; [exact Hcalls|]. rewrite Hurl.
    vm_compute in Henc. injection Henc as <-. reflexivity.
Defined.

Lemma default_list_query_is_maxRecords_10_witness :
  exists req,
    calls (executeAirtableTool (H := sample_host) upstream_ok sample_globals
             (lit "airtable_get_records") empty_view) = [req]
    /\ params req = Some {[ lit "maxRecords" := Some (JNum 10) ]}.
Proof.
  destruct (sample_list_call empty_view) as (req & Hcalls & _);
    [eexists; reflexivity|].
  exists req. split; [exact Hcalls|].
  apply (default_list_query_is_maxRecords_10 (H := sample_host) upstream_ok
           sample_globals empty_view req).
  - rewrite Hcalls. apply list_elem_of_here.
  - reflexivity.
  - reflexivity.
  - reflexivity.
Defined.

Lemma undeclared_arguments_are_ignored_witness :
  executeAirtableTool (H := sample_host) upstream_404 sample_globals
    (lit "airtable_delete_record") (Some (JObj rec123_props))
  = executeAirtableTool (H := sample_host) upstream_404 sample_globals
      (lit "airtable_delete_record") (Some (JObj rec123_props_more)).
Proof.
  apply (undeclared_arguments_are_ignored (H := sample_host) upstream_404
           sample_globals delete_tool rec123_props rec123_props_more).
  - unfold tools, delete_tool. set_solver.
  - intros p Hp. cbn [properties delete_tool] in Hp.
    apply list_elem_of_singleton in Hp. subst p. cbn [prop_name].
    unfold rec123_props_more. symmetry. apply lookup_insert_ne. discriminate.
Defined.

Lemma plain_table_name_is_used_verbatim_witness :
  url get_tasks = lit "https://api.airtable.com/v0/app123/Tasks".
Proof.
  destruct (plain_table_name_is_used_verbatim (H := sample_host) upstream_ok
              (load plain_env) (lit "airtable_get_records") no_arguments
              get_tasks) as [ [_ Hurl] | [ [Hn | Hn] _] ].
  - vm_compute. reflexivity.
  - vm_compute. apply list_elem_of_here.
  - exact Hurl.
  - discriminate Hn.
  - discriminate Hn.
Defined.

Lemma code_units_checked s :
  forallb (fun u => u <? 65536) s = true -> code_units s.
Proof.
  unfold code_units. induction s as [|u s IH]; [constructor|].
  cbn [forallb]. intros [Hu Hs]%andb_true_iff.
  constructor; [apply N.ltb_lt, Hu|exact (IH Hs)].
Qed.

Lemma table_address_determines_base_and_table_witness :
  show (AIRTABLE_BASE_ID sample_globals) = show (AIRTABLE_BASE_ID sample_globals)
  /\ show (AIRTABLE_TABLE_NAME sample_globals)
     = show (AIRTABLE_TABLE_NAME sample_globals).
Proof.
  destruct (sample_list_call empty_view) as (req & Hcalls & _);
    [eexists; reflexivity|].
  assert (Hurl : url req = url post_ada).
  { revert Hcalls. vm_compute. intros [= <-]. reflexivity. }
  apply (table_address_determines_base_and_table (H := sample_host)
           upstream_ok upstream_ok sample_globals sample_globals
           (lit "airtable_get_records") (lit "airtable_create_record")
           empty_view ada_fields req post_ada).
  - apply code_units_checked. vm_compute. reflexivity.
  - apply code_units_checked. vm_compute. reflexivity.
  - left. reflexivity.
  - right. reflexivity.
  - rewrite Hcalls. apply list_elem_of_here.
  - vm_compute. apply list_elem_of_here.
  - exact Hurl.
Defined.

Lemma upstream_call_needs_authorized_tool_call_witness :
  authorization create_ada
  = Some (lit "Bearer " ++ show (MCP_SERVER_SECRET sample_globals))
  /\ calls (handle (H := sample_host) upstream_404 sample_globals sample_now
              create_ada) = [post_ada].
Proof.
  destruct (upstream_call_needs_authorized_tool_call (H := sample_host)
              upstream_404 sample_globals sample_now create_ada post_ada)
    as (toolName & body & _ & _ & Hauth & _ & Hcalls & _).
  - vm_compute. apply list_elem_of_here.
  - split; [exact Hauth|exact Hcalls].
Defined.

Lemma tool_failure_is_http_200_witness :
  fst (handle (H := sample_host) upstream_ok sample_globals sample_now
         drop_table_call)
  = Return {| status := 200;
              sent := ResultBody
                        {| content :=
                             [ {| type := lit "text";
                                  text := lit "Error: Unknown tool: airtable_drop_table" |} ];
                           isError := Some true |} |}.
Proof.
  apply (tool_failure_is_http_200 (H := sample_host) upstream_ok
           sample_globals sample_now drop_table_call
           (lit "airtable_drop_table") no_arguments
           (Error (lit "Unknown tool: airtable_drop_table"))).
  - reflexivity.
  - reflexivity.
  - vm_compute. reflexivity.
  - left. split; [|reflexivity].
    intros Hin. apply registered_cases in Hin.
    destruct Hin as [Hn | [Hn | [Hn | Hn] ] ]; discriminate Hn.
Defined.

Lemma tools_listing_iff_authorized_witness :
  fst (handle (H := sample_host) upstream_ok sample_globals sample_now
         list_tools_authorized)
  = Return {| status := 200; sent := Catalogue tools |}.
Proof.
  destruct (tools_listing_iff_authorized (H := sample_host) upstream_ok
              sample_globals sample_now list_tools_authorized no_arguments)
    as (_ & Hok & _).
  - reflexivity.
  - reflexivity.
  - apply Hok. vm_compute. reflexivity.
Defined.

Lemma open_routes_ignore_authorization_witness :
  handle (H := sample_host) upstream_ok sample_globals sample_now health_check
  = handle (H := sample_host) upstream_404 sample_globals sample_now
      health_check_wrong_bearer.
Proof.
  destruct (open_routes_ignore_authorization (H := sample_host) upstream_ok
              sample_globals upstream_404 sample_now health_check
              health_check_wrong_bearer undefined no_arguments)
    as (Hsame & _).
  - right. left. reflexivity.
  - reflexivity.
  - reflexivity.
  - reflexivity.
  - exact Hsame.
Defined.

Lemma empty_variable_counts_as_missing_witness :
  last (main env_empty_token) = Some (ProcessExit 1).
Proof.
  destruct (empty_variable_counts_as_missing env_empty_token
              (lit "AIRTABLE_API_TOKEN")) as [Hlast _].
  - unfold required_variables. set_solver.
  - vm_compute. reflexivity.
  - exact Hlast.
Defined.

Lemma complete_configuration_listens_witness :
  main sample_env
  = [ ConsoleLog (lit "Starting HTTP MCP Airtable Server...");
      Listen (PortNumber 3000) (lit "0.0.0.0") ].
Proof.
  destruct (complete_configuration_listens sample_env) as (p & Hmain & Hp & _).
  - unfold required_variables. intros k Hk.
    rewrite !elem_of_cons, elem_of_nil in Hk.
    destruct Hk as [-> | [-> | [-> | [-> | [] ] ] ] ];
      eexists; (split; [vm_compute; reflexivity|discriminate]).
  - rewrite Hmain, Hp; [reflexivity|]. left. vm_compute. reflexivity.
Defined.

Lemma short_secret_is_disclosed_in_full_witness :
  handle (H := sample_host) upstream_ok (load env_short_secret) sample_now
    {| target := Debug; authorization := None; parse := Parsed undefined |}
  = (Return {| status := 200;
               sent := DebugBody true 3 (lit "abc...") |}, []).
Proof.
  apply (short_secret_is_disclosed_in_full (H := sample_host) upstream_ok
           env_short_secret (PortNumber 3000) (lit "0.0.0.0") (lit "abc")
           sample_now None undefined).
  - vm_compute. apply list_elem_of_further, list_elem_of_here.
  - vm_compute. reflexivity.
  - cbn. lia.
Defined.
